(** * faust: the event-delivery pipeline and the changelog-backed table

    A shallow embedding of

      - [faust/channels.py]      ([Event], [Channel]),
      - [faust/stores/memory.py] ([Store]),
      - [faust/tables/table.py]  ([Table]),

    followed by the properties of the specification that these three
    modules decide.

    Python objects are dynamically typed; keys and values ([K], [V] are
    aliases of [Any] in the source) range over one small universe [pyobj].
    A coroutine is modelled by the state transformer it performs between
    its call and its return; an exception is an explicit [Raise] result,
    and the state reached when it is raised is kept, as in Python.  A
    coroutine that awaits the queue may also stay suspended: its outcome
    is then [Suspended], with the state in which it waits. *)

From stdpp Require Import base option list countable strings gmap fin_maps.
From Stdlib Require Import ZArith Lia.

Local Open Scope Z_scope.

(* ===================================================================== *)
(** ** Python values and exceptions *)
(* ===================================================================== *)

Inductive pyobj : Type :=
  | PyNone
  | PyInt (z : Z)
  | PyStr (s : string)
  | PyBytes (b : string).

#[global] Instance pyobj_eq_dec : EqDecision pyobj.
Proof. solve_decision. Defined.

Definition pyobj_encode (o : pyobj) : unit + Z + string + string :=
  match o with
  | PyNone => inl (inl (inl tt))
  | PyInt z => inl (inl (inr z))
  | PyStr s => inl (inr s)
  | PyBytes b => inr b
  end.

Definition pyobj_decode (c : unit + Z + string + string) : pyobj :=
  match c with
  | inl (inl (inl _)) => PyNone
  | inl (inl (inr z)) => PyInt z
  | inl (inr s) => PyStr s
  | inr b => PyBytes b
  end.

#[global] Instance pyobj_countable : Countable pyobj.
Proof.
  refine (inj_countable' pyobj_encode pyobj_decode _).
  intros []; reflexivity.
Defined.

(** The exceptions the three modules raise or catch. *)
Inductive exn : Type :=
  | KeyDecodeError (why : string)
  | ValueDecodeError (why : string)
  | KeyError (key : pyobj)
  | RuntimeError (why : string)
  | AttributeError (why : string).

Inductive result (A : Type) : Type :=
  | Ok (a : A)
  | Raise (e : exn).
Arguments Ok {A} a.
Arguments Raise {A} e.

(** What a call that may wait has come to: it has returned or raised, or
    it is suspended. *)
Inductive outcome (A : Type) : Type :=
  | Done (r : result A)
  | Suspended.
Arguments Done {A} r.
Arguments Suspended {A}.

(* ===================================================================== *)
(** ** A state-and-exception monad for method bodies *)
(* ===================================================================== *)

Definition M (S A : Type) : Type := S -> result A * S.

Definition ret {S A} (a : A) : M S A := fun s => (Ok a, s).

Definition raise {S A} (e : exn) : M S A := fun s => (Raise e, s).

Definition bind {S A B} (m : M S A) (k : A -> M S B) : M S B :=
  fun s =>
    match m s with
    | (Ok a, s') => k a s'
    | (Raise e, s') => (Raise e, s')
    end.

Definition gets {S A} (f : S -> A) : M S A := fun s => (Ok (f s), s).

Definition modify {S} (f : S -> S) : M S unit := fun s => (Ok tt, f s).

Declare Scope py_scope.
Delimit Scope py_scope with py.
Notation "x <- c1 ;; c2" := (bind c1 (fun x => c2))
  (at level 100, c1 at next level, right associativity) : py_scope.
Notation "c1 ;; c2" := (bind c1 (fun _ => c2))
  (at level 100, right associativity) : py_scope.
Local Open Scope py_scope.

(** [for x in xs: body(x)]: the loop stops at the first exception. *)
Fixpoint for_each {S A} (body : A -> M S unit) (xs : list A) : M S unit :=
  match xs with
  | [] => ret tt
  | x :: rest => body x ;; for_each body rest
  end.

(** Final state and result of a run. *)
Definition state_of {S R} (r : R * S) : S := snd r.
Definition result_of {S R} (r : R * S) : R := fst r.

(* ===================================================================== *)
(** ** Coroutines that may stay suspended *)
(* ===================================================================== *)

(** A method body that awaits something which may not be ready.  When a
    step is suspended, so is the whole body, in the state of that step:
    what follows has not run. *)
Definition Blocking (S A : Type) : Type := S -> outcome A * S.

(** A body that never waits. *)
Definition lift {S A} (m : M S A) : Blocking S A :=
  fun s => (Done (fst (m s)), snd (m s)).

Definition suspended {S A} : Blocking S A := fun s => (Suspended, s).

Definition await {S A B} (m : Blocking S A) (k : A -> Blocking S B) : Blocking S B :=
  fun s =>
    match m s with
    | (Done (Ok a), s') => k a s'
    | (Done (Raise e), s') => (Done (Raise e), s')
    | (Suspended, s') => (Suspended, s')
    end.

Declare Scope await_scope.
Delimit Scope await_scope with await.
Notation "x <- c1 ;; c2" := (await c1 (fun x => c2))
  (at level 100, c1 at next level, right associativity) : await_scope.
Notation "c1 ;; c2" := (await c1 (fun _ => c2))
  (at level 100, right associativity) : await_scope.

(** [for x in xs: await body(x)]: the loop stops at the first exception
    and waits where its body waits. *)
Fixpoint for_each_await {S A} (body : A -> Blocking S unit) (xs : list A) : Blocking S unit :=
  match xs with
  | [] => lift (ret tt)
  | x :: rest => (body x ;; for_each_await body rest)%await
  end.

(* ===================================================================== *)
(** ** Records of [faust.types]: Message, Event, pending messages *)
(* ===================================================================== *)

(** A raw record.  [Message] is declared in [faust/types], whose fields
    the source reads as [message.key], [message.value] and
    [message.refcount].  The fields below are the immutable ones; the
    mutable [refcount] of the object identified by [msg_id] lives in the
    [World], because several Events alias one Message. *)
Record Message : Type := mkMessage {
  msg_id : N;
  msg_topic : string;
  msg_partition : Z;
  msg_offset : Z;
  msg_key : pyobj;
  msg_value : pyobj
}.

(** [Event.__init__]: key, value and a reference to the originating
    message ([None] for events created by [publish_message]).  The [app]
    attribute is the one application whose state is the [World]. *)
Record Event : Type := mkEvent {
  key : pyobj;
  value : pyobj;
  message : option Message
}.

(** An [asyncio.Queue]: its bound ([maxsize]; zero or less for none) and
    the Events waiting in it, oldest first. *)
Record Queue : Type := mkQueue {
  maxsize : Z;
  items : list Event
}.

(** [ModelArg] and [CodecArg]: a type or codec given by name, or [None]. *)
Definition ModelArg : Type := option string.
Definition CodecArg : Type := option string.

(** [app.serializers]: the injected decode strategy.  [loads_key] and
    [loads_value] either return the decoded object or raise. *)
Record Serializers : Type := mkSerializers {
  loads_key : ModelArg -> pyobj -> result pyobj;
  loads_value : ModelArg -> pyobj -> result pyobj
}.

Record App : Type := mkApp {
  serializers : Serializers
}.

(** The attributes of a [Channel] set by [__init__], plus the class
    attribute [clone_shares_queue] (True in [Channel]) and the identity of
    the object, under which its [_queue] is found in the [World]. *)
Record Channel : Type := mkChannel {
  chan_id : N;
  app : App;
  key_type : ModelArg;
  value_type : ModelArg;
  is_iterator : bool;
  clone_shares_queue : bool
}.

(** A completion callback is an opaque callable, named by a handle; its
    invocations are recorded in the [World]. *)
Definition MessageSentCallback : Type := option N.

Record PendingMessage : Type := mkPendingMessage {
  pm_channel : Channel;
  pm_key : pyobj;
  pm_value : pyobj;
  pm_key_serializer : CodecArg;
  pm_value_serializer : CodecArg;
  pm_partition : option Z;
  pm_callback : MessageSentCallback
}.

Record RecordMetadata : Type := mkRecordMetadata {
  rm_topic : option string;
  rm_partition : option Z;
  rm_offset : option Z;
  rm_timestamp : option Z
}.

(** [FutureMessage]: a pending message and the result of its future. *)
Record FutureMessage : Type := mkFutureMessage {
  fut_message : PendingMessage;
  fut_result : option RecordMetadata
}.

(** What [logger.exception] was called with. *)
Inductive LogRecord : Type :=
  | CannotDecodeKey (k : pyobj) (exc : exn)
  | CannotDecodeValue (k v : pyobj) (exc : exn).

(* ===================================================================== *)
(** ** The world a channel runs in *)
(* ===================================================================== *)

Record World : Type := mkWorld {
  (** [message.refcount], by object identity; an object without an entry
      has the count 0 *)
  refcounts : gmap N Z;
  (** the records passed to [app.consumer.ack], oldest first *)
  consumer_acked : list Message;
  (** [channel._queue], by object identity; no entry while it is [None] *)
  queues : gmap N Queue;
  (** what [streams.current_event()] returns *)
  current_event : option Event;
  (** the sends attached to a message, oldest first *)
  attached : list (option Message * FutureMessage);
  (** the calls of completion callbacks, oldest first *)
  callbacks_called : list (N * FutureMessage);
  (** the records logged, oldest first *)
  logged : list LogRecord
}.

Definition set_refcounts (f : gmap N Z -> gmap N Z) (w : World) : World :=
  mkWorld (f (refcounts w)) (consumer_acked w) (queues w) (current_event w)
          (attached w) (callbacks_called w) (logged w).

Definition set_consumer_acked (f : list Message -> list Message) (w : World) : World :=
  mkWorld (refcounts w) (f (consumer_acked w)) (queues w) (current_event w)
          (attached w) (callbacks_called w) (logged w).

Definition set_queues (f : gmap N Queue -> gmap N Queue) (w : World) : World :=
  mkWorld (refcounts w) (consumer_acked w) (f (queues w)) (current_event w)
          (attached w) (callbacks_called w) (logged w).

Definition set_attached
    (f : list (option Message * FutureMessage) -> list (option Message * FutureMessage))
    (w : World) : World :=
  mkWorld (refcounts w) (consumer_acked w) (queues w) (current_event w)
          (f (attached w)) (callbacks_called w) (logged w).

Definition set_callbacks_called
    (f : list (N * FutureMessage) -> list (N * FutureMessage)) (w : World) : World :=
  mkWorld (refcounts w) (consumer_acked w) (queues w) (current_event w)
          (attached w) (f (callbacks_called w)) (logged w).

Definition set_logged (f : list LogRecord -> list LogRecord) (w : World) : World :=
  mkWorld (refcounts w) (consumer_acked w) (queues w) (current_event w)
          (attached w) (callbacks_called w) (f (logged w)).

Definition set_current_event (ev : option Event) (w : World) : World :=
  mkWorld (refcounts w) (consumer_acked w) (queues w) ev
          (attached w) (callbacks_called w) (logged w).

(** A world in which nothing has happened yet. *)
Definition empty_world : World := mkWorld ∅ [] ∅ None [] [] [].

(** [message.refcount] *)
Definition refcount (w : World) (m : Message) : Z :=
  default 0 (refcounts w !! msg_id m).

(** Modelled from the spec: [Message.decref] of [faust/types], which
    "decrements the originating record's reference count". *)
Definition decref (m : Message) : M World unit :=
  modify (fun w => set_refcounts <[msg_id m := refcount w m - 1]> w).

(** Modelled from the spec: [app.consumer.ack] of the transport, which
    "accepts acknowledgment requests keyed by Raw Record"; every request
    is recorded. *)
Definition consumer_ack (m : Message) : M World unit :=
  modify (set_consumer_acked (fun l => l ++ [m])).

(* ===================================================================== *)
(** ** [faust/channels.py]: queue access, pending messages, attachment *)
(* ===================================================================== *)

(** The queue that the [queue] property of [ch] answers with: the one in
    [_queue], or, while [_queue] is [None], the empty queue of bound 1
    that the property creates. *)
Definition the_queue (w : World) (ch : Channel) : Queue :=
  default (mkQueue 1 []) (queues w !! chan_id ch).

(** The events waiting in the queue of [ch]; none while [_queue] is
    [None]. *)
Definition queue_of (w : World) (ch : Channel) : list Event :=
  items (the_queue w ch).

(** The [queue] property: while [_queue] is [None] it is set to
    [FlowControlQueue(maxsize=1, ...)], created empty. *)
Definition Channel_queue (ch : Channel) : M World unit :=
  modify (fun w =>
    match queues w !! chan_id ch with
    | None => set_queues <[chan_id ch := mkQueue 1 []]> w
    | Some _ => w
    end).

(** [Queue.full()]: a queue without bound is never full. *)
Definition full (q : Queue) : bool :=
  (0 <? maxsize q) && (maxsize q <=? Z.of_nat (length (items q))).

(** [await self.queue.put(value)].  The queue is first-in first-out.
    While it is full the caller stays suspended and the queue is as it
    was; otherwise the value goes to the end of the queue.  The flow of
    the application is taken to be active. *)
Definition queue_put (ch : Channel) (ev : Event) : Blocking World unit :=
  (lift (Channel_queue ch) ;;
   fun w =>
     if full (the_queue w ch)
     then (Suspended, w)
     else (Done (Ok tt),
           set_queues <[chan_id ch := mkQueue (maxsize (the_queue w ch))
                                              (items (the_queue w ch) ++ [ev])]> w))%await.

Definition Channel_prepare_key (ch : Channel) (k : pyobj) (key_serializer : CodecArg) : pyobj := k.

Definition Channel_prepare_value (ch : Channel) (v : pyobj) (value_serializer : CodecArg) : pyobj := v.

Definition Channel_as_future_message (ch : Channel) (k v : pyobj)
    (partition : option Z) (key_serializer value_serializer : CodecArg)
    (callback : MessageSentCallback) : FutureMessage :=
  mkFutureMessage
    (mkPendingMessage ch
       (Channel_prepare_key ch k key_serializer)
       (Channel_prepare_value ch v value_serializer)
       key_serializer value_serializer partition callback)
    None.

(** Modelled from the spec: [App._send_attached] of [faust/app.py].  To
    attach is "deferring an outbound send so it is committed together with
    the acknowledgment of the Event that triggered it": the pending
    message is built and kept with the triggering message; nothing is
    published. *)
Definition App__send_attached (m : option Message) (ch : Channel) (k v : pyobj)
    (partition : option Z) (key_serializer value_serializer : CodecArg)
    (callback : MessageSentCallback) : M World FutureMessage :=
  let fut := Channel_as_future_message ch k v partition
               key_serializer value_serializer callback in
  modify (set_attached (fun l => l ++ [(m, fut)])) ;;
  ret fut.

Definition Event__attach (self : Event) (ch : Channel) (k v : pyobj)
    (partition : option Z) (key_serializer value_serializer : CodecArg)
    (callback : MessageSentCallback) : M World FutureMessage :=
  App__send_attached (message self) ch k v partition
    key_serializer value_serializer callback.

Definition Channel__create_event (ch : Channel) (k v : pyobj) (m : option Message) : Event :=
  mkEvent k v m.

Definition Channel_put (ch : Channel) (ev : Event) : Blocking World unit :=
  if negb (is_iterator ch) && negb (clone_shares_queue ch)
  then lift (raise (RuntimeError "Cannot put on this channel before aiter(channel)"))
  else queue_put ch ev.

(** [fut.set_result(result)], then the callback, if there is one. *)
Definition Channel__finalize_message (ch : Channel) (fut : FutureMessage)
    (res : RecordMetadata) : M World FutureMessage :=
  let fut' := mkFutureMessage (fut_message fut) (Some res) in
  match pm_callback (fut_message fut') with
  | Some cb => modify (set_callbacks_called (fun l => l ++ [(cb, fut')])) ;; ret fut'
  | None => ret fut'
  end.

Definition Channel_publish_message (ch : Channel) (fut : FutureMessage) :
    Blocking World FutureMessage :=
  let event := Channel__create_event ch (pm_key (fut_message fut))
                 (pm_value (fut_message fut)) None in
  (Channel_put ch event ;;
   lift (Channel__finalize_message ch fut (mkRecordMetadata None None None None)))%await.

Definition Channel__send_now (ch : Channel) (k v : pyobj)
    (partition : option Z) (key_serializer value_serializer : CodecArg)
    (callback : MessageSentCallback) : Blocking World FutureMessage :=
  Channel_publish_message ch
    (Channel_as_future_message ch k v partition key_serializer value_serializer callback).

Definition Channel_send (ch : Channel) (k v : pyobj)
    (partition : option Z) (key_serializer value_serializer : CodecArg)
    (callback : MessageSentCallback) (force : bool) : Blocking World FutureMessage :=
  if negb force then
    (event <- lift (gets current_event) ;;
     match event with
     | Some ev =>
         lift (Event__attach ev ch k v partition key_serializer value_serializer callback)
     | None => Channel__send_now ch k v partition key_serializer value_serializer callback
     end)%await
  else Channel__send_now ch k v partition key_serializer value_serializer callback.

(** Modelled from the spec: [App._maybe_attach] of [faust/app.py], the
    "single internal dispatch that, unless [force] is set, prefers
    attaching the outbound send to the currently-processing Event rather
    than sending immediately". *)
Definition App__maybe_attach (ch : Channel) (k v : pyobj)
    (partition : option Z) (key_serializer value_serializer : CodecArg)
    (callback : MessageSentCallback) (force : bool) : Blocking World FutureMessage :=
  if negb force then
    (event <- lift (gets current_event) ;;
     match event with
     | Some ev =>
         lift (Event__attach ev ch k v partition key_serializer value_serializer callback)
     | None => Channel__send_now ch k v partition key_serializer value_serializer callback
     end)%await
  else Channel__send_now ch k v partition key_serializer value_serializer callback.

(* ===================================================================== *)
(** ** [faust/channels.py]: class Event *)
(* ===================================================================== *)

(** The [key] argument of [send] and [forward]: the sentinel default, or
    an object of the caller. *)
Inductive KeyArg : Type :=
  | USE_EXISTING_KEY
  | Key (k : pyobj).

Inductive ValueArg : Type :=
  | USE_EXISTING_VALUE
  | Value (v : pyobj).

Definition Event__send (self : Event) (ch : Channel) (k v : pyobj)
    (partition : option Z) (key_serializer value_serializer : CodecArg)
    (callback : MessageSentCallback) (force : bool) : Blocking World FutureMessage :=
  App__maybe_attach ch k v partition key_serializer value_serializer callback force.

Definition Event_send (self : Event) (ch : Channel) (k : KeyArg) (v : ValueArg)
    (partition : option Z) (key_serializer value_serializer : CodecArg)
    (callback : MessageSentCallback) (force : bool) : Blocking World FutureMessage :=
  let k' := match k with USE_EXISTING_KEY => key self | Key x => x end in
  let v' := match v with USE_EXISTING_VALUE => value self | Value x => x end in
  Event__send self ch k' v' partition key_serializer value_serializer callback force.

(** [self.message.key]: an attribute of [None] cannot be read. *)
Definition message_attr (self : Event) (attr : string) (f : Message -> pyobj) : M World pyobj :=
  match message self with
  | Some m => ret (f m)
  | None => raise (AttributeError attr)
  end.

Definition Event_forward (self : Event) (ch : Channel) (k : KeyArg) (v : ValueArg)
    (partition : option Z) (key_serializer value_serializer : CodecArg)
    (callback : MessageSentCallback) (force : bool) : Blocking World FutureMessage :=
  (k' <- lift (match k with
               | USE_EXISTING_KEY => message_attr self "key" msg_key
               | Key x => ret x
               end) ;;
   v' <- lift (match v with
               | USE_EXISTING_VALUE => message_attr self "value" msg_value
               | Value x => ret x
               end) ;;
   Event__send self ch k' v' partition key_serializer value_serializer callback force)%await.

Definition Event_ack (self : Event) : M World unit :=
  match message self with
  | None => raise (AttributeError "decref")
  | Some m =>
      (* decrement the reference count *)
      decref m ;;
      (* if no more references, ack message *)
      rc <- gets (fun w => refcount w m) ;;
      if rc =? 0 then consumer_ack m else ret tt
  end.

Definition Event___aenter__ (self : Event) : M World Event := ret self.

(** [__aexit__] ignores the exception it is given and returns [None]. *)
Definition Event___aexit__ (self : Event) (exc : option exn) : M World unit :=
  Event_ack self.

(** [async with self as x: body(x)], as Python runs it: [__aenter__], the
    body, then [__aexit__] with the exception of the body, if any.  The
    value [__aexit__] returns is [None], which is false, so the exception
    of the body is raised again. *)
Definition async_with {A} (self : Event) (body : Event -> M World A) : M World A :=
  x <- Event___aenter__ self ;;
  fun w =>
    match body x w with
    | (Ok a, w') =>
        match Event___aexit__ self None w' with
        | (Ok _, w'') => (Ok a, w'')
        | (Raise e, w'') => (Raise e, w'')
        end
    | (Raise exc, w') =>
        match Event___aexit__ self (Some exc) w' with
        | (Ok _, w'') => (Raise exc, w'')
        | (Raise e, w'') => (Raise e, w'')
        end
    end.

(* ===================================================================== *)
(** ** [faust/channels.py]: decode and deliver *)
(* ===================================================================== *)

Definition Channel_on_key_decode_error (ch : Channel) (exc : exn) (m : Message) : M World unit :=
  modify (set_logged (fun l => l ++ [CannotDecodeKey (msg_key m) exc])).

Definition Channel_on_value_decode_error (ch : Channel) (exc : exn) (m : Message) : M World unit :=
  modify (set_logged (fun l => l ++ [CannotDecodeValue (msg_key m) (msg_value m) exc])).

(** The closure built by [_compile_decode].  It returns the Event, or
    [None] when a hook handled a decode error. *)
Definition Channel_decode (ch : Channel) (m : Message) : M World (option Event) :=
  match loads_key (serializers (app ch)) (key_type ch) (msg_key m) with
  | Raise (KeyDecodeError why) =>
      Channel_on_key_decode_error ch (KeyDecodeError why) m ;; ret None
  | Raise exc => raise exc
  | Ok k =>
      match loads_value (serializers (app ch)) (value_type ch) (msg_value m) with
      | Raise (ValueDecodeError why) =>
          Channel_on_value_decode_error ch (ValueDecodeError why) m ;; ret None
      | Raise exc => raise exc
      | Ok v => ret (Some (Channel__create_event ch k v (Some m)))
      end
  end.

(** The closure built by [_compile_deliver].  [put] is bound to
    [self.queue.put] on the first call, which creates the queue; the
    attribute [_queue] is never reset, so reading the property on every
    call reaches the same queue. *)
Definition Channel_deliver (ch : Channel) (m : Message) : Blocking World unit :=
  (lift (Channel_queue ch) ;;
   match loads_key (serializers (app ch)) (key_type ch) (msg_key m) with
   | Raise (KeyDecodeError why) =>
       lift (Channel_on_key_decode_error ch (KeyDecodeError why) m)
   | Raise exc => lift (raise exc)
   | Ok k =>
       match loads_value (serializers (app ch)) (value_type ch) (msg_value m) with
       | Raise (ValueDecodeError why) =>
           lift (Channel_on_value_decode_error ch (ValueDecodeError why) m)
       | Raise exc => lift (raise exc)
       | Ok v => queue_put ch (Channel__create_event ch k v (Some m))
       end
   end)%await.

(** The specification of [decode] read as a program: deliver is "the same
    deserialization logic" followed by the enqueueing of the Event that
    [decode] returns. *)
Definition deliver_by_decode (ch : Channel) (m : Message) : Blocking World unit :=
  (lift (Channel_queue ch) ;;
   r <- lift (Channel_decode ch m) ;;
   match r with
   | Some ev => queue_put ch ev
   | None => lift (ret tt)
   end)%await.

(* ===================================================================== *)
(** ** [faust/stores/memory.py]: class Store *)
(* ===================================================================== *)

Module Store.

(** The one attribute, [self.data], a dictionary. *)
Record t : Type := mk {
  data : gmap pyobj pyobj
}.

Definition on_init : t := mk ∅.

Definition _clear (self : t) : t := mk ∅.

(** [dict.update] with an iterable of pairs assigns them one after the
    other, in the order of the iterable. *)
Definition dict_update (d : gmap pyobj pyobj) (pairs : list (pyobj * pyobj)) : gmap pyobj pyobj :=
  fold_left (fun acc kv => <[kv.1 := kv.2]> acc) pairs d.

Definition apply_changelog_batch (self : t) (batch : list Event)
    (to_key to_value : pyobj -> pyobj) : t :=
  mk (dict_update (data self)
        (map (fun event => (to_key (key event), to_value (value event))) batch)).

Definition persisted_offset (self : t) (tp : string * Z) : option Z := None.

Definition reset_state (self : t) : t := self.

(** The mapping protocol a Store inherits from [FastUserDict]: every
    operation goes to [self.data]. *)
Definition contains (self : t) (k : pyobj) : bool := bool_decide (is_Some (data self !! k)).

Definition getitem (self : t) (k : pyobj) : result pyobj :=
  match data self !! k with
  | Some v => Ok v
  | None => Raise (KeyError k)
  end.

Definition setitem (self : t) (k v : pyobj) : t := mk (<[k := v]> (data self)).

Definition delitem (self : t) (k : pyobj) : result unit * t :=
  match data self !! k with
  | Some _ => (Ok tt, mk (delete k (data self)))
  | None => (Raise (KeyError k), self)
  end.

End Store.

(* ===================================================================== *)
(** ** [faust/tables/table.py]: class Table *)
(* ===================================================================== *)

Module Table.

(** A notification of the sensors. *)
Inductive SensorCall : Type :=
  | on_table_get (k : pyobj)
  | on_table_set (k v : pyobj)
  | on_table_del (k : pyobj).

(** The state of a table: its store ([self.data]), the default-value
    factory ([self.default], a callable without arguments, or [None]),
    and what it has handed to its collaborators: the entries appended to
    the changelog topic, the keys that carry a time-to-live deadline,
    the notifications of the sensors. *)
Record t : Type := mk {
  data : Store.t;
  default : option (unit -> pyobj);
  changelog : list (pyobj * pyobj);
  ttl_configured : bool;
  ttl_keys : gset pyobj;
  sensors : list SensorCall
}.

Definition set_data (f : Store.t -> Store.t) (self : t) : t :=
  mk (f (data self)) (default self) (changelog self)
     (ttl_configured self) (ttl_keys self) (sensors self).

Definition set_changelog (f : list (pyobj * pyobj) -> list (pyobj * pyobj)) (self : t) : t :=
  mk (data self) (default self) (f (changelog self))
     (ttl_configured self) (ttl_keys self) (sensors self).

Definition set_ttl_keys (f : gset pyobj -> gset pyobj) (self : t) : t :=
  mk (data self) (default self) (changelog self)
     (ttl_configured self) (f (ttl_keys self)) (sensors self).

Definition set_sensors (f : list SensorCall -> list SensorCall) (self : t) : t :=
  mk (data self) (default self) (changelog self)
     (ttl_configured self) (ttl_keys self) (f (sensors self)).

(** A new table over a store initialised by [Store.on_init]. *)
Definition new (default_factory : option (unit -> pyobj)) (with_ttl : bool) : t :=
  mk Store.on_init default_factory [] with_ttl ∅ [].

(** Modelled from the spec: [Collection._send_changelog] of
    [faust/tables/base.py], which is to "append a changelog entry
    (key, value) for this table's changelog topic". *)
Definition _send_changelog (k v : pyobj) : M t unit :=
  modify (set_changelog (fun l => l ++ [(k, v)])).

(** Modelled from the spec: [Collection._maybe_set_key_ttl], to "refresh
    the key's TTL deadline if TTL is configured".  The deadline itself is
    a time and is left out; the key is recorded as carrying one. *)
Definition _maybe_set_key_ttl (k : pyobj) : M t unit :=
  modify (fun self =>
    if ttl_configured self then set_ttl_keys (fun s => {[k]} ∪ s) self else self).

(** Modelled from the spec: [Collection._maybe_del_key_ttl], to "clear the
    key's TTL". *)
Definition _maybe_del_key_ttl (k : pyobj) : M t unit :=
  modify (fun self =>
    if ttl_configured self then set_ttl_keys (fun s => s ∖ {[k]}) self else self).

(** Modelled from the spec: the sensor boundary, [on_get(table, key)],
    [on_set(table, key, value)] and [on_del(table, key)]. *)
Definition _sensor_on_get (k : pyobj) : M t unit :=
  modify (set_sensors (fun l => l ++ [on_table_get k])).

Definition _sensor_on_set (k v : pyobj) : M t unit :=
  modify (set_sensors (fun l => l ++ [on_table_set k v])).

Definition _sensor_on_del (k : pyobj) : M t unit :=
  modify (set_sensors (fun l => l ++ [on_table_del k])).

Definition __missing__ (k : pyobj) : M t pyobj :=
  self_default <- gets default ;;
  match self_default with
  | Some factory => ret (factory tt)
  | None => raise (KeyError k)
  end.

Definition on_key_get (k : pyobj) : M t unit :=
  _sensor_on_get k.

Definition on_key_set (k v : pyobj) : M t unit :=
  _send_changelog k v ;;
  _maybe_set_key_ttl k ;;
  _sensor_on_set k v.

Definition on_key_del (k : pyobj) : M t unit :=
  _send_changelog k PyNone ;;
  _maybe_del_key_ttl k ;;
  _sensor_on_del k.

(** The mapping protocol of [ManagedUserDict] (library [mode]): each
    operation calls its hook and then works on [self.data];
    [__getitem__] falls back on [__missing__] for a key that is not in
    [self.data]. *)
Definition __contains__ (k : pyobj) : M t bool :=
  gets (fun self => Store.contains (data self) k).

Definition __getitem__ (k : pyobj) : M t pyobj :=
  on_key_get k ;;
  present <- gets (fun self => Store.contains (data self) k) ;;
  if present
  then fun self => (Store.getitem (data self) k, self)
  else __missing__ k.

Definition __setitem__ (k v : pyobj) : M t unit :=
  on_key_set k v ;;
  modify (set_data (fun s => Store.setitem s k v)).

Definition __delitem__ (k : pyobj) : M t unit :=
  on_key_del k ;;
  fun self =>
    let '(r, s) := Store.delitem (data self) k in
    (r, set_data (fun _ => s) self).

Definition _has_key (k : pyobj) : M t bool := __contains__ k.

Definition _get_key (k : pyobj) : M t pyobj := __getitem__ k.

Definition _set_key (k v : pyobj) : M t unit := __setitem__ k v.

Definition _del_key (k : pyobj) : M t unit := __delitem__ k.

(** A mutation of a table, for histories of mutations. *)
Inductive op : Type :=
  | set (k v : pyobj)
  | del (k : pyobj).

Definition run_op (o : op) : M t unit :=
  match o with
  | set k v => _set_key k v
  | del k => _del_key k
  end.

(** The table after a history of mutations; a mutation that raises (the
    deletion of a missing key) does not stop the ones that follow. *)
Definition run_ops (history : list op) (self : t) : t :=
  fold_left (fun acc o => snd (run_op o acc)) history self.

(** The changelog as the recovery reads it back: one Event per entry,
    in the order of the log. *)
Definition changelog_events (self : t) : list Event :=
  map (fun kv => mkEvent kv.1 kv.2 None) (changelog self).

(** Replay of the changelog of a table against a fresh store. *)
Definition replay (self : t) : Store.t :=
  Store.apply_changelog_batch Store.on_init (changelog_events self) id id.

End Table.

(* ===================================================================== *)
(** ** Sample inputs *)
(* ===================================================================== *)

(** A record of topic "t" with reference count 2, shared by its Events. *)
Definition sample_message : Message :=
  mkMessage 7 "t" 0 41 (PyBytes "k1") (PyBytes "v1").

Definition sample_event : Event :=
  mkEvent (PyStr "k1") (PyInt 1) (Some sample_message).

Definition sample_world : World :=
  set_refcounts <[msg_id sample_message := 2]> empty_world.

(** A body of a scope that fails after it started. *)
Definition failing_body (e : Event) : M World unit :=
  raise (RuntimeError "boom").

(** A channel in producer form that shares its queue, as [Channel] does,
    over serializers that decode bytes to a string and refuse anything
    else. *)
Definition sample_serializers : Serializers :=
  mkSerializers
    (fun _ raw => match raw with
                  | PyBytes b => Ok (PyStr b)
                  | _ => Raise (KeyDecodeError "not bytes")
                  end)
    (fun _ raw => match raw with
                  | PyBytes b => Ok (PyStr b)
                  | _ => Raise (ValueDecodeError "not bytes")
                  end).

Definition sample_channel : Channel :=
  mkChannel 1 (mkApp sample_serializers) None None false true.

(** The world in which [sample_event] is being processed. *)
Definition processing_world : World :=
  set_current_event (Some sample_event) sample_world.

(** Records whose key, respectively value, the sample serializers
    refuse, and the record that follows them in the log. *)
Definition bad_key_message : Message :=
  mkMessage 8 "t" 0 42 (PyInt 3) (PyBytes "v2").

Definition bad_value_message : Message :=
  mkMessage 9 "t" 0 43 (PyBytes "k3") PyNone.

Definition next_message : Message :=
  mkMessage 10 "t" 0 44 (PyBytes "k4") (PyBytes "v4").

(** The batch [(k,1), (k,2), (j,3)] of the changelog, as Events of any
    three records. *)
Definition batch_k1_k2_j3 (k j : pyobj) (m1 m2 m3 : option Message) : list Event :=
  [mkEvent k (PyInt 1) m1; mkEvent k (PyInt 2) m2; mkEvent j (PyInt 3) m3].

(** The changelog entry that a mutation of a table is to append. *)
Definition changelog_entry (o : Table.op) : pyobj * pyobj :=
  match o with
  | Table.set k v => (k, v)
  | Table.del k => (k, PyNone)
  end.

(** The mutation on the dictionary of the store. *)
Definition apply_op (d : gmap pyobj pyobj) (o : Table.op) : gmap pyobj pyobj :=
  match o with
  | Table.set k v => <[k := v]> d
  | Table.del k => delete k d
  end.

Definition is_set (o : Table.op) : bool :=
  match o with
  | Table.set _ _ => true
  | Table.del _ => false
  end.

(** A table without default factory, and one that builds [0] for a
    missing key, as [Table(default=int)] does. *)
Definition plain_table : Table.t := Table.new None false.

Definition counting_table : Table.t := Table.new (Some (fun _ => PyInt 0)) false.

(** A channel that was given a queue without bound, as
    [Channel(app, queue=asyncio.Queue())] is, in a world where nothing
    else has happened. *)
Definition roomy_world : World :=
  set_queues <[chan_id sample_channel := mkQueue 0 []]> empty_world.

(* ===================================================================== *)
(** ** [faust/channels.py]: getting from the queue, cloning, iteration *)
(* ===================================================================== *)

(** [await self.queue.get()]: the oldest Event leaves the queue and is
    returned; on an empty queue the caller stays suspended. *)
Definition queue_get (ch : Channel) : Blocking World Event :=
  (lift (Channel_queue ch) ;;
   fun w =>
     match items (the_queue w ch) with
     | [] => (Suspended, w)
     | ev :: rest =>
         (Done (Ok ev),
          set_queues <[chan_id ch := mkQueue (maxsize (the_queue w ch)) rest]> w)
     end)%await.

Definition Channel_get (ch : Channel) : Blocking World Event := queue_get ch.

Definition Channel___anext__ (ch : Channel) : Blocking World Event :=
  if negb (is_iterator ch)
  then lift (raise (RuntimeError "Need to call channel.__aiter__()"))
  else queue_get ch.

(** The [queue] entry of [_clone_args]: the queue of [self], which the
    property creates if need be, or [None]. *)
Definition Channel__clone_args (self : Channel) : M World (option N) :=
  if clone_shares_queue self
  then Channel_queue self ;; ret (Some (chan_id self))
  else ret None.

(** [clone]: a new channel of the same class and configuration.  A clone
    that is given the queue of [self] finds its [_queue] where [self]
    does, and so carries the same key into [queues]; a clone that is given
    no queue is the new object [fresh], whose [_queue] is [None]. *)
Definition Channel_clone (self : Channel) (is_iter : option bool) (fresh : N) : M World Channel :=
  q <- Channel__clone_args self ;;
  ret (mkChannel
         (match q with Some shared => shared | None => fresh end)
         (app self) (key_type self) (value_type self)
         (match is_iter with Some b => b | None => is_iterator self end)
         (clone_shares_queue self)).

Definition Channel___aiter__ (self : Channel) (fresh : N) : M World Channel :=
  if is_iterator self then ret self else Channel_clone self (Some true) fresh.

(** [n] calls of [get] in a row, with the Events they returned. *)
Fixpoint get_many (ch : Channel) (n : nat) : Blocking World (list Event) :=
  match n with
  | O => lift (ret [])
  | S n' =>
      (ev <- Channel_get ch ;;
       evs <- get_many ch n' ;;
       lift (ret (ev :: evs)))%await
  end.

(** [deliver] of a record and then [get], for each record of a list in
    turn: the producer and the consumer of a channel taking turns.  The
    Events that [get] returned are collected. *)
Fixpoint relay (ch : Channel) (ms : list Message) : Blocking World (list Event) :=
  match ms with
  | [] => lift (ret [])
  | m :: rest =>
      (Channel_deliver ch m ;;
       ev <- Channel_get ch ;;
       evs <- relay ch rest ;;
       lift (ret (ev :: evs)))%await
  end.

(** What [decode] returns for a record; the state has no part in it. *)
Definition decode_outcome (ch : Channel) (m : Message) : result (option Event) :=
  result_of (Channel_decode ch m empty_world).

(** There is room in the queue of [ch] for [n] more values. *)
Definition room_for (w : World) (ch : Channel) (n : nat) : Prop :=
  maxsize (the_queue w ch) <= 0 \/
  Z.of_nat (length (queue_of w ch) + n) <= maxsize (the_queue w ch).

(** The Event of a record that decodes, nothing for one that a hook
    handles. *)
Definition decoded_event (ch : Channel) (m : Message) : option Event :=
  match decode_outcome ch m with
  | Ok o => o
  | Raise _ => None
  end.

(** The last Event of a batch whose converted key is [x]. *)
Fixpoint last_write (to_key : pyobj -> pyobj) (x : pyobj) (batch : list Event) : option Event :=
  match batch with
  | [] => None
  | ev :: rest =>
      match last_write to_key x rest with
      | Some later => Some later
      | None => if decide (to_key (key ev) = x) then Some ev else None
      end
  end.

(** A channel in producer form that does not share its queue, as a
    subclass that sets [clone_shares_queue] to False has. *)
Definition private_channel : Channel :=
  mkChannel 2 (mkApp sample_serializers) None None false false.

(** A record whose value makes the sample key decoder's exception come
    out of the value decoder. *)
Definition odd_serializers : Serializers :=
  mkSerializers
    (fun _ raw => Ok raw)
    (fun _ raw => Raise (KeyDecodeError "raised while decoding the value")).

Definition odd_channel : Channel :=
  mkChannel 3 (mkApp odd_serializers) None None false true.

(* ===================================================================== *)
(** ** Laws of the monad *)
(* ===================================================================== *)

Lemma bind_Ok {S A B} (m : M S A) (k : A -> M S B) (s s' : S) (a : A) :
  m s = (Ok a, s') -> bind m k s = k a s'.
Proof. intros H. unfold bind. by rewrite H. Qed.

Lemma bind_Raise {S A B} (m : M S A) (k : A -> M S B) (s s' : S) (e : exn) :
  m s = (Raise e, s') -> bind m k s = (Raise e, s').
Proof. intros H. unfold bind. by rewrite H. Qed.

Lemma bind_modify {S B} (f : S -> S) (k : unit -> M S B) (s : S) :
  bind (modify f) k s = k tt (f s).
Proof. reflexivity. Qed.

Lemma bind_gets {S A B} (f : S -> A) (k : A -> M S B) (s : S) :
  bind (gets f) k s = k (f s) s.
Proof. reflexivity. Qed.

Lemma bind_ret {S A B} (a : A) (k : A -> M S B) (s : S) :
  bind (ret a) k s = k a s.
Proof. reflexivity. Qed.

(* ===================================================================== *)
(** ** Laws of suspension *)
(* ===================================================================== *)

Lemma await_Done {S A B} (m : Blocking S A) (k : A -> Blocking S B) (s s' : S) (a : A) :
  m s = (Done (Ok a), s') -> await m k s = k a s'.
Proof. intros H. unfold await. by rewrite H. Qed.

Lemma await_Raise {S A B} (m : Blocking S A) (k : A -> Blocking S B) (s s' : S) (e : exn) :
  m s = (Done (Raise e), s') -> await m k s = (Done (Raise e), s').
Proof. intros H. unfold await. by rewrite H. Qed.

Lemma await_Suspended {S A B} (m : Blocking S A) (k : A -> Blocking S B) (s s' : S) :
  m s = (Suspended, s') -> await m k s = (Suspended, s').
Proof. intros H. unfold await. by rewrite H. Qed.

Lemma await_lift_modify {S B} (f : S -> S) (k : unit -> Blocking S B) (s : S) :
  await (lift (modify f)) k s = k tt (f s).
Proof. reflexivity. Qed.

Lemma await_lift_gets {S A B} (f : S -> A) (k : A -> Blocking S B) (s : S) :
  await (lift (gets f)) k s = k (f s) s.
Proof. reflexivity. Qed.

Lemma await_lift_ret {S A B} (a : A) (k : A -> Blocking S B) (s : S) :
  await (lift (ret a)) k s = k a s.
Proof. reflexivity. Qed.

Lemma lift_run {S A} (m : M S A) (s s' : S) (r : result A) :
  m s = (r, s') -> lift m s = (Done r, s').
Proof. intros H. unfold lift. by rewrite H. Qed.

(* ===================================================================== *)
(** ** Reference-counted acknowledgment *)
(* ===================================================================== *)

(** One call of [ack] on an Event of message [m]: the count goes down by
    one, and the transport is asked to acknowledge [m] when it reaches
    zero. *)
Lemma Event_ack_step (e : Event) (m : Message) (w : World) :
  message e = Some m ->
  Event_ack e w =
    (Ok tt,
     let w1 := set_refcounts <[msg_id m := refcount w m - 1]> w in
     if refcount w m - 1 =? 0 then set_consumer_acked (fun l => l ++ [m]) w1 else w1).
Proof.
  intros Hm. unfold Event_ack. rewrite Hm.
  unfold bind, decref, modify, gets, consumer_ack, ret. simpl.
  unfold refcount at 1. simpl. rewrite lookup_insert_eq. simpl.
  destruct (refcount w m - 1 =? 0); reflexivity.
Qed.

Lemma refcount_after_ack (e : Event) (m : Message) (w : World) :
  message e = Some m ->
  refcount (state_of (Event_ack e w)) m = refcount w m - 1.
Proof.
  intros Hm. rewrite (Event_ack_step e m w Hm). unfold state_of. simpl.
  destruct (refcount w m - 1 =? 0); unfold refcount; simpl;
    rewrite lookup_insert_eq; reflexivity.
Qed.

(** Acknowledging the Events of a list, all of message [m], from a count
    of [r]: the transport is asked once if the count is positive and the
    list is long enough to exhaust it, and not at all otherwise. *)
Lemma ack_each_from (m : Message) (es : list Event) :
  Forall (fun e => message e = Some m) es ->
  forall (w : World),
    result_of (for_each Event_ack es w) = Ok tt /\
    refcount (state_of (for_each Event_ack es w)) m = refcount w m - Z.of_nat (length es) /\
    consumer_acked (state_of (for_each Event_ack es w)) =
      consumer_acked w ++
      (if bool_decide (1 <= refcount w m <= Z.of_nat (length es)) then [m] else []).
Proof.
  induction 1 as [|e es He Hes IH]; intros w.
  - simpl. unfold result_of, state_of, ret. simpl.
    split; [reflexivity|]. split; [lia|].
    rewrite bool_decide_eq_false_2 by lia. by rewrite app_nil_r.
  - pose proof (refcount_after_ack e m w He) as Hrc.
    pose proof (Event_ack_step e m w He) as Hstep.
    cbn [for_each].
    destruct (Event_ack e w) as [r w'] eqn:Hack.
    injection Hstep as -> Hw'.
    rewrite (bind_Ok _ _ _ _ _ Hack).
    unfold state_of in Hrc. simpl in Hrc.
    destruct (IH w') as (IHr & IHc & IHa).
    split; [exact IHr|]. split.
    + rewrite IHc, Hrc. rewrite length_cons. lia.
    + rewrite IHa, Hrc. rewrite length_cons.
      destruct (Z.eqb_spec (refcount w m - 1) 0) as [Hz|Hz].
      * rewrite Hw'. simpl.
        rewrite bool_decide_eq_false_2 by lia.
        rewrite bool_decide_eq_true_2 by lia.
        by rewrite app_nil_r.
      * rewrite Hw'. simpl.
        destruct (decide (1 <= refcount w m <= Z.of_nat (S (length es)))) as [Hd|Hd].
        -- rewrite bool_decide_eq_true_2 by lia.
           rewrite (bool_decide_eq_true_2 _ Hd). reflexivity.
        -- rewrite bool_decide_eq_false_2 by lia.
           rewrite (bool_decide_eq_false_2 _ Hd). reflexivity.
Qed.

(** C1.  Let the Events of [es] all wrap one record [m] whose reference
    count is [N >= 1], and let [ack] be called on each in turn.  No call
    raises, and the transport is asked to acknowledge [m] exactly once as
    soon as [N] calls were made and not before: fewer than [N] calls leave
    the acknowledgments as they were, [N] calls add the one of [m], and
    any number of further calls adds no second one. *)
Theorem ack_fires_once_on_Nth_call (m : Message) (N : Z) (es : list Event) (w : World) :
  1 <= N ->
  refcount w m = N ->
  Forall (fun e => message e = Some m) es ->
  result_of (for_each Event_ack es w) = Ok tt /\
  consumer_acked (state_of (for_each Event_ack es w)) =
    consumer_acked w ++ (if bool_decide (N <= Z.of_nat (length es)) then [m] else []).
Proof.
  intros HN Hrc Hes.
  destruct (ack_each_from m es Hes w) as (Hr & _ & Ha).
  split; [exact Hr|]. rewrite Ha, Hrc.
  destruct (decide (N <= Z.of_nat (length es))) as [Hd|Hd].
  - rewrite (bool_decide_eq_true_2 _ Hd). by rewrite bool_decide_eq_true_2 by lia.
  - rewrite (bool_decide_eq_false_2 _ Hd). by rewrite bool_decide_eq_false_2 by lia.
Qed.

Lemma ack_fires_once_on_Nth_call_witness :
  result_of (for_each Event_ack [sample_event; sample_event; sample_event] sample_world) = Ok tt /\
  consumer_acked
    (state_of (for_each Event_ack [sample_event; sample_event; sample_event] sample_world)) =
    consumer_acked sample_world ++
    (if bool_decide (2 <= Z.of_nat (length [sample_event; sample_event; sample_event]))
     then [sample_message] else []).
Proof.
  apply (ack_fires_once_on_Nth_call sample_message 2
           [sample_event; sample_event; sample_event] sample_world).
  - lia.
  - reflexivity.
  - repeat constructor.
Defined.

(* ===================================================================== *)
(** ** The Event as a scoped resource *)
(* ===================================================================== *)

(** C7.  Whatever the body of [async with event] does, and whether it
    returns or raises, the state at the exit of the scope is the state in
    which the body ended followed by one call of [ack]: for an Event of
    record [m] the reference count of [m] is one less than the body left
    it, and the outcome of the scope is the outcome of its body. *)
Theorem scope_exit_acks_once {A} (self : Event) (body : Event -> M World A) (w : World) :
  state_of (async_with self body w) =
    state_of (Event_ack self (state_of (body self w))) /\
  forall m, message self = Some m ->
    result_of (async_with self body w) = result_of (body self w) /\
    refcount (state_of (async_with self body w)) m =
      refcount (state_of (body self w)) m - 1.
Proof.
  assert (Hst : state_of (async_with self body w) =
                state_of (Event_ack self (state_of (body self w)))).
  { unfold async_with, Event___aenter__, Event___aexit__. rewrite bind_ret.
    unfold state_of.
    destruct (body self w) as [[a|exc] w']; simpl;
      destruct (Event_ack self w') as [[u|e'] w'']; reflexivity. }
  split; [exact Hst|]. intros m Hm. split.
  - unfold async_with, Event___aenter__, Event___aexit__. rewrite bind_ret.
    unfold result_of.
    destruct (body self w) as [[a|exc] w']; simpl;
      rewrite (Event_ack_step self m w' Hm); reflexivity.
  - rewrite Hst. apply refcount_after_ack. exact Hm.
Qed.

Lemma scope_exit_acks_once_witness :
  result_of (async_with sample_event failing_body sample_world) =
    result_of (failing_body sample_event sample_world) /\
  refcount (state_of (async_with sample_event failing_body sample_world)) sample_message =
    refcount (state_of (failing_body sample_event sample_world)) sample_message - 1.
Proof.
  apply (proj2 (scope_exit_acks_once sample_event failing_body sample_world) sample_message).
  reflexivity.
Defined.

(* ===================================================================== *)
(** ** Sending on a channel: attached or immediate *)
(* ===================================================================== *)

(** Creating the queue changes the queue of no channel: the one it
    creates is the one the property would have answered with. *)
Lemma the_queue_Channel_queue (ch ch' : Channel) (w : World) :
  the_queue (state_of (Channel_queue ch w)) ch' = the_queue w ch'.
Proof.
  unfold Channel_queue, modify, state_of, the_queue. cbn [snd].
  destruct (queues w !! chan_id ch) eqn:Hq; [reflexivity|]. cbn.
  destruct (decide (chan_id ch = chan_id ch')) as [Heq|Hne].
  - rewrite <- Heq, lookup_insert_eq, Hq. reflexivity.
  - by rewrite lookup_insert_ne.
Qed.

Lemma queue_of_Channel_queue (ch ch' : Channel) (w : World) :
  queue_of (state_of (Channel_queue ch w)) ch' = queue_of w ch'.
Proof. unfold queue_of. by rewrite the_queue_Channel_queue. Qed.

Lemma the_queue_set_queues_insert (ch : Channel) (q : Queue) (w : World) :
  the_queue (set_queues <[chan_id ch := q]> w) ch = q.
Proof. unfold the_queue. cbn. by rewrite lookup_insert_eq. Qed.

Lemma queue_of_set_queues_insert (ch : Channel) (q : Queue) (w : World) :
  queue_of (set_queues <[chan_id ch := q]> w) ch = items q.
Proof. unfold queue_of. by rewrite the_queue_set_queues_insert. Qed.

Lemma set_queues_insert_created (ch : Channel) (q : Queue) (w : World) :
  set_queues <[chan_id ch := q]> (state_of (Channel_queue ch w)) =
  set_queues <[chan_id ch := q]> w.
Proof.
  unfold Channel_queue, modify, state_of. cbn [snd].
  destruct (queues w !! chan_id ch); [reflexivity|].
  unfold set_queues. cbn. by rewrite insert_insert_eq.
Qed.

Lemma await_Channel_queue {B} (ch : Channel) (k : unit -> Blocking World B) (w : World) :
  await (lift (Channel_queue ch)) k w = k tt (state_of (Channel_queue ch w)).
Proof. reflexivity. Qed.

(** A queue that is full has been created. *)
Lemma full_queue_exists (ch : Channel) (w : World) :
  full (the_queue w ch) = true -> state_of (Channel_queue ch w) = w.
Proof.
  unfold the_queue, Channel_queue, modify, state_of. cbn [snd].
  destruct (queues w !! chan_id ch); [reflexivity|]. cbn. discriminate.
Qed.

(** A queue in which nothing waits is not full. *)
Lemma empty_queue_not_full (ch : Channel) (w : World) :
  queue_of w ch = [] -> full (the_queue w ch) = false.
Proof.
  unfold queue_of, full. intros ->. cbn [length].
  destruct (Z.ltb_spec 0 (maxsize (the_queue w ch))); [|reflexivity]. cbn.
  apply Z.leb_gt. lia.
Qed.

(** [queue.put] with room: it returns with the value at the end of the
    queue and changes nothing else. *)
Lemma queue_put_room (ch : Channel) (ev : Event) (w : World) :
  full (the_queue w ch) = false ->
  queue_put ch ev w =
    (Done (Ok tt),
     set_queues <[chan_id ch := mkQueue (maxsize (the_queue w ch)) (queue_of w ch ++ [ev])]> w).
Proof.
  intros Hroom. unfold queue_put.
  rewrite await_Channel_queue.
  rewrite the_queue_Channel_queue, Hroom.
  by rewrite set_queues_insert_created.
Qed.

(** [queue.put] on a full queue: the caller is suspended and nothing has
    changed. *)
Lemma queue_put_full (ch : Channel) (ev : Event) (w : World) :
  full (the_queue w ch) = true ->
  queue_put ch ev w = (Suspended, w).
Proof.
  intros Hfull. unfold queue_put.
  rewrite await_Channel_queue.
  rewrite the_queue_Channel_queue, Hfull.
  by rewrite (full_queue_exists ch w Hfull).
Qed.

Lemma not_legal_iff (ch : Channel) :
  negb (is_iterator ch) && negb (clone_shares_queue ch) =
    negb (is_iterator ch || clone_shares_queue ch).
Proof. by destruct (is_iterator ch), (clone_shares_queue ch). Qed.

Lemma put_on_legal_channel (ch : Channel) (ev : Event) (w : World) :
  (is_iterator ch || clone_shares_queue ch)%bool = true ->
  Channel_put ch ev w = queue_put ch ev w.
Proof. intros Hl. unfold Channel_put. by rewrite not_legal_iff, Hl. Qed.

(** The immediate path on a channel on which [put] is legal and whose
    queue has room: the Event of the message joins the queue and the
    future is resolved with empty metadata. *)
Lemma send_now_publishes (ch : Channel) (k v : pyobj) (partition : option Z)
    (ks vs : CodecArg) (cb : MessageSentCallback) (w : World) :
  (is_iterator ch || clone_shares_queue ch)%bool = true ->
  full (the_queue w ch) = false ->
  result_of (Channel__send_now ch k v partition ks vs cb w) =
    Done (Ok (mkFutureMessage (mkPendingMessage ch k v ks vs partition cb)
                (Some (mkRecordMetadata None None None None)))) /\
  queue_of (state_of (Channel__send_now ch k v partition ks vs cb w)) ch =
    queue_of w ch ++ [mkEvent k v None] /\
  attached (state_of (Channel__send_now ch k v partition ks vs cb w)) = attached w.
Proof.
  intros Hlegal Hroom. unfold Channel__send_now, Channel_publish_message.
  rewrite (await_Done _ _ _ _ _
             (eq_trans (put_on_legal_channel ch _ w Hlegal) (queue_put_room ch _ w Hroom))).
  unfold Channel__finalize_message, Channel_as_future_message,
    Channel__create_event, Channel_prepare_key, Channel_prepare_value.
  cbn [fut_message pm_key pm_value pm_callback].
  destruct cb as [c|]; unfold lift, result_of, state_of; cbn [fst snd bind modify ret];
    (split; [reflexivity|]); (split; [|reflexivity]);
    unfold queue_of, the_queue; cbn; by rewrite lookup_insert_eq.
Qed.

(** The immediate path on a full queue: [send] is suspended in [put];
    the future is not resolved and nothing has changed. *)
Lemma send_now_suspended (ch : Channel) (k v : pyobj) (partition : option Z)
    (ks vs : CodecArg) (cb : MessageSentCallback) (w : World) :
  (is_iterator ch || clone_shares_queue ch)%bool = true ->
  full (the_queue w ch) = true ->
  Channel__send_now ch k v partition ks vs cb w = (Suspended, w).
Proof.
  intros Hlegal Hfull. unfold Channel__send_now, Channel_publish_message.
  apply await_Suspended.
  rewrite (put_on_legal_channel ch _ w Hlegal). by apply queue_put_full.
Qed.

(** The immediate path on a channel on which [put] is not legal: the
    usage error, and nothing is enqueued or attached. *)
Lemma send_now_usage_error (ch : Channel) (k v : pyobj) (partition : option Z)
    (ks vs : CodecArg) (cb : MessageSentCallback) (w : World) :
  (is_iterator ch || clone_shares_queue ch)%bool = false ->
  Channel__send_now ch k v partition ks vs cb w =
    (Done (Raise (RuntimeError "Cannot put on this channel before aiter(channel)")), w).
Proof.
  intros Hillegal. unfold Channel__send_now, Channel_publish_message, Channel_put.
  rewrite not_legal_iff, Hillegal. reflexivity.
Qed.

Lemma the_queue_set_current_event (ev : option Event) (w : World) (ch : Channel) :
  the_queue (set_current_event ev w) ch = the_queue w ch.
Proof. reflexivity. Qed.

(** The immediate path does not look at the Event in flight. *)
Lemma send_now_ignores_current_event (ch : Channel) (k v : pyobj) (partition : option Z)
    (ks vs : CodecArg) (cb : MessageSentCallback) (w : World) (ev : option Event) :
  Channel__send_now ch k v partition ks vs cb (set_current_event ev w) =
    (result_of (Channel__send_now ch k v partition ks vs cb w),
     set_current_event ev (state_of (Channel__send_now ch k v partition ks vs cb w))).
Proof.
  destruct (is_iterator ch || clone_shares_queue ch)%bool eqn:Hl.
  - destruct (full (the_queue w ch)) eqn:Hf.
    + rewrite !(send_now_suspended ch k v partition ks vs cb _ Hl) by assumption.
      reflexivity.
    + unfold Channel__send_now, Channel_publish_message.
      rewrite (await_Done _ _ _ _ _
                 (eq_trans (put_on_legal_channel ch _ w Hl) (queue_put_room ch _ w Hf))).
      rewrite (await_Done _ _ _ _ _
                 (eq_trans (put_on_legal_channel ch _ (set_current_event ev w) Hl)
                           (queue_put_room ch _ (set_current_event ev w) Hf))).
      unfold Channel__finalize_message.
      cbn [fut_message pm_callback Channel_as_future_message].
      destruct cb as [c|]; reflexivity.
  - rewrite !(send_now_usage_error ch k v partition ks vs cb _ Hl). reflexivity.
Qed.

(** C3.  A [send] with [force=False] made while an Event [ev] is being
    processed is attached to [ev]: it returns the unresolved pending
    message, which is kept with the record of [ev], and the state is
    otherwise untouched, so nothing is enqueued, whether the queue is
    full or not.  A [send] with [force=True] is the immediate path
    [_send_now] whatever Event is in flight, and attaches nothing.  On a
    channel on which [put] is legal (every [Channel], whose
    [clone_shares_queue] is true): if the queue has room, the Event of the
    message is in the queue when [send] returns the resolved future; if
    the queue is full, [send] is suspended in [put] and nothing has
    changed. *)
Theorem send_attaches_unless_forced (ch : Channel) (k v : pyobj) (partition : option Z)
    (ks vs : CodecArg) (cb : MessageSentCallback) (w : World) :
  (forall ev, current_event w = Some ev ->
     Channel_send ch k v partition ks vs cb false w =
       (Done (Ok (mkFutureMessage (mkPendingMessage ch k v ks vs partition cb) None)),
        set_attached
          (fun l => l ++ [(message ev,
                           mkFutureMessage (mkPendingMessage ch k v ks vs partition cb) None)])
          w)) /\
  (forall inflight,
     Channel_send ch k v partition ks vs cb true (set_current_event inflight w) =
       (result_of (Channel__send_now ch k v partition ks vs cb w),
        set_current_event inflight
          (state_of (Channel__send_now ch k v partition ks vs cb w)))) /\
  attached (state_of (Channel_send ch k v partition ks vs cb true w)) = attached w /\
  ((is_iterator ch || clone_shares_queue ch)%bool = true ->
   full (the_queue w ch) = false ->
     result_of (Channel_send ch k v partition ks vs cb true w) =
       Done (Ok (mkFutureMessage (mkPendingMessage ch k v ks vs partition cb)
                   (Some (mkRecordMetadata None None None None)))) /\
     queue_of (state_of (Channel_send ch k v partition ks vs cb true w)) ch =
       queue_of w ch ++ [mkEvent k v None]) /\
  ((is_iterator ch || clone_shares_queue ch)%bool = true ->
   full (the_queue w ch) = true ->
     Channel_send ch k v partition ks vs cb true w = (Suspended, w)).
Proof.
  split; [|split; [|split; [|split]]].
  - intros ev Hev. unfold Channel_send. cbn [negb].
    rewrite await_lift_gets, Hev. reflexivity.
  - intros inflight. unfold Channel_send. cbn [negb].
    apply send_now_ignores_current_event.
  - unfold Channel_send. cbn [negb].
    destruct (is_iterator ch || clone_shares_queue ch)%bool eqn:Hl.
    + destruct (full (the_queue w ch)) eqn:Hf.
      * by rewrite (send_now_suspended ch k v partition ks vs cb w Hl Hf).
      * apply (send_now_publishes ch k v partition ks vs cb w Hl Hf).
    + by rewrite (send_now_usage_error ch k v partition ks vs cb w Hl).
  - intros Hl Hf. unfold Channel_send. cbn [negb].
    destruct (send_now_publishes ch k v partition ks vs cb w Hl Hf) as (Hr & Hq & _).
    split; assumption.
  - intros Hl Hf. unfold Channel_send. cbn [negb].
    apply (send_now_suspended ch k v partition ks vs cb w Hl Hf).
Qed.

Lemma send_attaches_unless_forced_witness :
  Channel_send sample_channel (PyStr "a") (PyInt 5) None None None None false processing_world =
    (Done (Ok (mkFutureMessage
                 (mkPendingMessage sample_channel (PyStr "a") (PyInt 5) None None None None)
                 None)),
     set_attached
       (fun l => l ++ [(message sample_event,
                        mkFutureMessage
                          (mkPendingMessage sample_channel (PyStr "a") (PyInt 5)
                             None None None None) None)])
       processing_world) /\
  (result_of (Channel_send sample_channel (PyStr "a") (PyInt 5) None None None None true
                processing_world) =
     Done (Ok (mkFutureMessage
                 (mkPendingMessage sample_channel (PyStr "a") (PyInt 5) None None None None)
                 (Some (mkRecordMetadata None None None None)))) /\
   queue_of (state_of (Channel_send sample_channel (PyStr "a") (PyInt 5) None None None None
                         true processing_world)) sample_channel =
     queue_of processing_world sample_channel ++ [mkEvent (PyStr "a") (PyInt 5) None]) /\
  Channel_send sample_channel (PyStr "b") (PyInt 6) None None None None true
    (state_of (Channel_send sample_channel (PyStr "a") (PyInt 5) None None None None true
                 processing_world)) =
    (Suspended,
     state_of (Channel_send sample_channel (PyStr "a") (PyInt 5) None None None None true
                 processing_world)).
Proof.
  pose proof (send_attaches_unless_forced sample_channel (PyStr "a") (PyInt 5)
                None None None None processing_world) as (Hattach & _ & _ & Hforce & _).
  split; [|split].
  - apply (Hattach sample_event). reflexivity.
  - apply Hforce; reflexivity.
  - apply (send_attaches_unless_forced sample_channel (PyStr "b") (PyInt 6)
             None None None None
             (state_of (Channel_send sample_channel (PyStr "a") (PyInt 5) None None None None
                          true processing_world))); reflexivity.
Defined.

(* ===================================================================== *)
(** ** Delivery and decode errors *)
(* ===================================================================== *)

Lemma deliver_on_key_error (ch : Channel) (m : Message) (w : World) (why : string) :
  loads_key (serializers (app ch)) (key_type ch) (msg_key m) = Raise (KeyDecodeError why) ->
  Channel_deliver ch m w =
    (Done (Ok tt),
     set_logged (fun l => l ++ [CannotDecodeKey (msg_key m) (KeyDecodeError why)])
       (state_of (Channel_queue ch w))).
Proof. intros Hk. unfold Channel_deliver. rewrite Hk. reflexivity. Qed.

Lemma deliver_on_value_error (ch : Channel) (m : Message) (w : World) (k : pyobj) (why : string) :
  loads_key (serializers (app ch)) (key_type ch) (msg_key m) = Ok k ->
  loads_value (serializers (app ch)) (value_type ch) (msg_value m) = Raise (ValueDecodeError why) ->
  Channel_deliver ch m w =
    (Done (Ok tt),
     set_logged
       (fun l => l ++ [CannotDecodeValue (msg_key m) (msg_value m) (ValueDecodeError why)])
       (state_of (Channel_queue ch w))).
Proof. intros Hk Hv. unfold Channel_deliver. rewrite Hk, Hv. reflexivity. Qed.

(** A record that decodes, delivered while the queue has room. *)
Lemma deliver_on_success (ch : Channel) (m : Message) (w : World) (k v : pyobj) :
  loads_key (serializers (app ch)) (key_type ch) (msg_key m) = Ok k ->
  loads_value (serializers (app ch)) (value_type ch) (msg_value m) = Ok v ->
  full (the_queue w ch) = false ->
  Channel_deliver ch m w =
    (Done (Ok tt),
     set_queues <[chan_id ch := mkQueue (maxsize (the_queue w ch))
                                        (queue_of w ch ++ [mkEvent k v (Some m)])]>
       (state_of (Channel_queue ch w))).
Proof.
  intros Hk Hv Hroom. unfold Channel_deliver. rewrite Hk, Hv.
  rewrite await_Channel_queue, queue_put_room
    by (by rewrite the_queue_Channel_queue).
  by rewrite the_queue_Channel_queue, queue_of_Channel_queue.
Qed.

(** A record that decodes, delivered while the queue is full: the
    delivery is suspended in [put], and nothing has changed. *)
Lemma deliver_on_success_full (ch : Channel) (m : Message) (w : World) (k v : pyobj) :
  loads_key (serializers (app ch)) (key_type ch) (msg_key m) = Ok k ->
  loads_value (serializers (app ch)) (value_type ch) (msg_value m) = Ok v ->
  full (the_queue w ch) = true ->
  Channel_deliver ch m w = (Suspended, w).
Proof.
  intros Hk Hv Hfull. unfold Channel_deliver. rewrite Hk, Hv.
  rewrite await_Channel_queue, (full_queue_exists ch w Hfull).
  by apply queue_put_full.
Qed.

Lemma the_queue_set_logged (f : list LogRecord -> list LogRecord) (w : World) (ch : Channel) :
  the_queue (set_logged f w) ch = the_queue w ch.
Proof. reflexivity. Qed.

Lemma queue_of_set_logged (f : list LogRecord -> list LogRecord) (w : World) (ch : Channel) :
  queue_of (set_logged f w) ch = queue_of w ch.
Proof. reflexivity. Qed.

Lemma key_error_or_other (exc : exn) :
  (exists why, exc = KeyDecodeError why) \/ (forall why, exc <> KeyDecodeError why).
Proof. destruct exc; try (right; intros; discriminate). left; eauto. Qed.

Lemma value_error_or_other (exc : exn) :
  (exists why, exc = ValueDecodeError why) \/ (forall why, exc <> ValueDecodeError why).
Proof. destruct exc; try (right; intros; discriminate). left; eauto. Qed.

(** Any other exception of a serializer leaves the delivery as it is. *)
Lemma deliver_key_raises (ch : Channel) (m : Message) (w : World) (exc : exn) :
  loads_key (serializers (app ch)) (key_type ch) (msg_key m) = Raise exc ->
  (forall why, exc <> KeyDecodeError why) ->
  Channel_deliver ch m w = (Done (Raise exc), state_of (Channel_queue ch w)).
Proof.
  intros Hk Hne. unfold Channel_deliver. rewrite Hk.
  destruct exc; try reflexivity. by destruct (Hne why).
Qed.

Lemma deliver_value_raises (ch : Channel) (m : Message) (w : World) (k : pyobj) (exc : exn) :
  loads_key (serializers (app ch)) (key_type ch) (msg_key m) = Ok k ->
  loads_value (serializers (app ch)) (value_type ch) (msg_value m) = Raise exc ->
  (forall why, exc <> ValueDecodeError why) ->
  Channel_deliver ch m w = (Done (Raise exc), state_of (Channel_queue ch w)).
Proof.
  intros Hk Hv Hne. unfold Channel_deliver. rewrite Hk, Hv.
  destruct exc; try reflexivity. by destruct (Hne why).
Qed.

(** What a delivery comes to, and the queue of its channel afterwards,
    depend on the state only through that queue. *)
Lemma deliver_respects_queue (ch : Channel) (m : Message) (w1 w2 : World) :
  the_queue w1 ch = the_queue w2 ch ->
  result_of (Channel_deliver ch m w1) = result_of (Channel_deliver ch m w2) /\
  the_queue (state_of (Channel_deliver ch m w1)) ch =
    the_queue (state_of (Channel_deliver ch m w2)) ch.
Proof.
  intros Hq.
  assert (Hq' : queue_of w1 ch = queue_of w2 ch) by (unfold queue_of; by rewrite Hq).
  destruct (loads_key (serializers (app ch)) (key_type ch) (msg_key m)) as [k|ek] eqn:Hk.
  - destruct (loads_value (serializers (app ch)) (value_type ch) (msg_value m))
      as [v|ev] eqn:Hv.
    + destruct (full (the_queue w2 ch)) eqn:Hf.
      * rewrite (deliver_on_success_full ch m w1 k v Hk Hv) by (by rewrite Hq).
        rewrite (deliver_on_success_full ch m w2 k v Hk Hv Hf). by split.
      * rewrite (deliver_on_success ch m w1 k v Hk Hv) by (by rewrite Hq).
        rewrite (deliver_on_success ch m w2 k v Hk Hv Hf).
        unfold result_of, state_of. cbn [fst snd].
        split; [reflexivity|]. by rewrite !the_queue_set_queues_insert, Hq, Hq'.
    + destruct (value_error_or_other ev) as [[why ->]|Hne].
      * rewrite !(deliver_on_value_error ch m _ k why Hk Hv).
        unfold result_of. cbn [fst]. split; [reflexivity|].
        unfold state_of at 1 3. cbn [snd].
        by rewrite !the_queue_set_logged, !the_queue_Channel_queue.
      * rewrite !(deliver_value_raises ch m _ k ev Hk Hv) by exact Hne.
        unfold result_of. cbn [fst]. split; [reflexivity|].
        unfold state_of at 1 3. cbn [snd].
        by rewrite !the_queue_Channel_queue.
  - destruct (key_error_or_other ek) as [[why ->]|Hne].
    + rewrite !(deliver_on_key_error ch m _ why Hk).
      unfold result_of. cbn [fst]. split; [reflexivity|].
      unfold state_of at 1 3. cbn [snd].
      by rewrite !the_queue_set_logged, !the_queue_Channel_queue.
    + rewrite !(deliver_key_raises ch m _ ek Hk) by exact Hne.
      unfold result_of. cbn [fst]. split; [reflexivity|].
      unfold state_of at 1 3. cbn [snd].
      by rewrite !the_queue_Channel_queue.
Qed.

Lemma deliveries_respect_queue (ch : Channel) (ms : list Message) :
  forall (w1 w2 : World),
    the_queue w1 ch = the_queue w2 ch ->
    result_of (for_each_await (Channel_deliver ch) ms w1) =
      result_of (for_each_await (Channel_deliver ch) ms w2) /\
    the_queue (state_of (for_each_await (Channel_deliver ch) ms w1)) ch =
      the_queue (state_of (for_each_await (Channel_deliver ch) ms w2)) ch.
Proof.
  induction ms as [|m ms IH]; intros w1 w2 Hq.
  - split; [reflexivity|exact Hq].
  - destruct (deliver_respects_queue ch m w1 w2 Hq) as [Hr Hs].
    cbn [for_each_await]. unfold await.
    unfold result_of, state_of in Hr, Hs.
    destruct (Channel_deliver ch m w1) as [[[[]|e1]|] w1'],
             (Channel_deliver ch m w2) as [[[[]|e2]|] w2']; cbn [fst snd] in Hr, Hs;
      try discriminate Hr.
    + apply IH. exact Hs.
    + injection Hr as ->. split; [reflexivity|exact Hs].
    + split; [reflexivity|exact Hs].
Qed.

(** A delivery that ends in a hook leaves the deliveries that follow as
    they would have been without it. *)
Lemma deliveries_after_dropped_record (ch : Channel) (m : Message) (rest : list Message)
    (w w' : World) :
  Channel_deliver ch m w = (Done (Ok tt), w') ->
  the_queue w' ch = the_queue w ch ->
  result_of (for_each_await (Channel_deliver ch) (m :: rest) w) =
    result_of (for_each_await (Channel_deliver ch) rest w) /\
  queue_of (state_of (for_each_await (Channel_deliver ch) (m :: rest) w)) ch =
    queue_of (state_of (for_each_await (Channel_deliver ch) rest w)) ch.
Proof.
  intros Hd Hq. cbn [for_each_await]. rewrite (await_Done _ _ _ _ _ Hd).
  destruct (deliveries_respect_queue ch rest w' w Hq) as [Hr Hs].
  split; [exact Hr|]. unfold queue_of. by rewrite Hs.
Qed.

(** C4.  When the key of a record fails to decode with exception [exc],
    [deliver] does what the hook [on_key_decode_error exc record] does and
    nothing more: it returns without raising, the hook has logged the key
    of the record and [exc], the queue of the channel holds what it held,
    and the records [rest] delivered afterwards come to what they come to
    and leave the queue they leave when delivered without it.  When the
    key decodes and the value fails, the same holds with
    [on_value_decode_error]. *)
Theorem decode_error_is_isolated (ch : Channel) (m : Message) (rest : list Message) (w : World) :
  (forall why,
     loads_key (serializers (app ch)) (key_type ch) (msg_key m) = Raise (KeyDecodeError why) ->
     Channel_deliver ch m w =
       lift (Channel_queue ch ;; Channel_on_key_decode_error ch (KeyDecodeError why) m) w /\
     result_of (Channel_deliver ch m w) = Done (Ok tt) /\
     logged (state_of (Channel_deliver ch m w)) =
       logged w ++ [CannotDecodeKey (msg_key m) (KeyDecodeError why)] /\
     queue_of (state_of (Channel_deliver ch m w)) ch = queue_of w ch /\
     result_of (for_each_await (Channel_deliver ch) (m :: rest) w) =
       result_of (for_each_await (Channel_deliver ch) rest w) /\
     queue_of (state_of (for_each_await (Channel_deliver ch) (m :: rest) w)) ch =
       queue_of (state_of (for_each_await (Channel_deliver ch) rest w)) ch) /\
  (forall k why,
     loads_key (serializers (app ch)) (key_type ch) (msg_key m) = Ok k ->
     loads_value (serializers (app ch)) (value_type ch) (msg_value m) =
       Raise (ValueDecodeError why) ->
     Channel_deliver ch m w =
       lift (Channel_queue ch ;; Channel_on_value_decode_error ch (ValueDecodeError why) m) w /\
     result_of (Channel_deliver ch m w) = Done (Ok tt) /\
     logged (state_of (Channel_deliver ch m w)) =
       logged w ++ [CannotDecodeValue (msg_key m) (msg_value m) (ValueDecodeError why)] /\
     queue_of (state_of (Channel_deliver ch m w)) ch = queue_of w ch /\
     result_of (for_each_await (Channel_deliver ch) (m :: rest) w) =
       result_of (for_each_await (Channel_deliver ch) rest w) /\
     queue_of (state_of (for_each_await (Channel_deliver ch) (m :: rest) w)) ch =
       queue_of (state_of (for_each_await (Channel_deliver ch) rest w)) ch).
Proof.
  assert (Hlog : forall f, logged (set_logged f (state_of (Channel_queue ch w))) = f (logged w)).
  { intros f. unfold Channel_queue, modify, state_of. cbn.
    by destruct (queues w !! chan_id ch). }
  assert (Hthe : forall f, the_queue (set_logged f (state_of (Channel_queue ch w))) ch =
                           the_queue w ch).
  { intros f. by rewrite the_queue_set_logged, the_queue_Channel_queue. }
  assert (Hqueue : forall f, queue_of (set_logged f (state_of (Channel_queue ch w))) ch =
                             queue_of w ch).
  { intros f. unfold queue_of. by rewrite Hthe. }
  split.
  - intros why Hk.
    pose proof (deliver_on_key_error ch m w why Hk) as Hd.
    split; [rewrite Hd; reflexivity|].
    split; [by rewrite Hd|].
    split; [rewrite Hd; apply Hlog|].
    split; [rewrite Hd; apply Hqueue|].
    apply (deliveries_after_dropped_record ch m rest w _ Hd). apply Hthe.
  - intros k why Hk Hv.
    pose proof (deliver_on_value_error ch m w k why Hk Hv) as Hd.
    split; [rewrite Hd; reflexivity|].
    split; [by rewrite Hd|].
    split; [rewrite Hd; apply Hlog|].
    split; [rewrite Hd; apply Hqueue|].
    apply (deliveries_after_dropped_record ch m rest w _ Hd). apply Hthe.
Qed.

Lemma decode_error_is_isolated_witness :
  (result_of (Channel_deliver sample_channel bad_key_message empty_world) = Done (Ok tt) /\
   queue_of (state_of (for_each_await (Channel_deliver sample_channel)
                         [bad_key_message; next_message] empty_world)) sample_channel =
     queue_of (state_of (for_each_await (Channel_deliver sample_channel)
                           [next_message] empty_world)) sample_channel) /\
  (result_of (Channel_deliver sample_channel bad_value_message empty_world) = Done (Ok tt) /\
   queue_of (state_of (for_each_await (Channel_deliver sample_channel)
                         [bad_value_message; next_message] empty_world)) sample_channel =
     queue_of (state_of (for_each_await (Channel_deliver sample_channel)
                           [next_message] empty_world)) sample_channel).
Proof.
  split.
  - destruct (proj1 (decode_error_is_isolated sample_channel bad_key_message
                       [next_message] empty_world) "not bytes")
      as (_ & Hr & _ & _ & _ & Hq); [reflexivity|].
    split; [exact Hr|exact Hq].
  - destruct (proj2 (decode_error_is_isolated sample_channel bad_value_message
                       [next_message] empty_world) (PyStr "k3") "not bytes")
      as (_ & Hr & _ & _ & _ & Hq); [reflexivity|reflexivity|].
    split; [exact Hr|exact Hq].
Defined.

(** The queue after the sample deliveries: the record that was refused
    has left nothing, the one after it is there. *)
Example delivery_goes_on_after_bad_key :
  queue_of (state_of (for_each_await (Channel_deliver sample_channel)
                        [bad_key_message; next_message] empty_world)) sample_channel =
    [mkEvent (PyStr "k4") (PyStr "v4") (Some next_message)].
Proof. vm_compute. reflexivity. Qed.

(* ===================================================================== *)
(** ** [decode] against [deliver] *)
(* ===================================================================== *)

(** What [decode] does in each case of the two serializers. *)
Lemma decode_on_success (ch : Channel) (m : Message) (w : World) (k v : pyobj) :
  loads_key (serializers (app ch)) (key_type ch) (msg_key m) = Ok k ->
  loads_value (serializers (app ch)) (value_type ch) (msg_value m) = Ok v ->
  Channel_decode ch m w = (Ok (Some (mkEvent k v (Some m))), w).
Proof. intros Hk Hv. unfold Channel_decode. rewrite Hk, Hv. reflexivity. Qed.

Lemma decode_no_event (ch : Channel) (m : Message) (w : World) :
  (forall k v,
     loads_key (serializers (app ch)) (key_type ch) (msg_key m) = Ok k ->
     loads_value (serializers (app ch)) (value_type ch) (msg_value m) = Ok v -> False) ->
  (forall ev, result_of (Channel_decode ch m w) <> Ok (Some ev)) /\
  queue_of (state_of (Channel_deliver ch m w)) ch = queue_of w ch.
Proof.
  intros Hno.
  destruct (loads_key (serializers (app ch)) (key_type ch) (msg_key m)) as [k|ek] eqn:Hk.
  - destruct (loads_value (serializers (app ch)) (value_type ch) (msg_value m))
      as [v|ev] eqn:Hv; [destruct (Hno k v eq_refl eq_refl)|].
    split.
    + intros ev'. unfold Channel_decode. rewrite Hk, Hv. by destruct ev.
    + destruct (value_error_or_other ev) as [[why ->]|Hne].
      * rewrite (deliver_on_value_error ch m w k why Hk Hv). unfold state_of at 1. cbn [snd].
        by rewrite queue_of_set_logged, queue_of_Channel_queue.
      * rewrite (deliver_value_raises ch m w k ev Hk Hv Hne). unfold state_of at 1. cbn [snd].
        by rewrite queue_of_Channel_queue.
  - split.
    + intros ev'. unfold Channel_decode. rewrite Hk. by destruct ek.
    + destruct (key_error_or_other ek) as [[why ->]|Hne].
      * rewrite (deliver_on_key_error ch m w why Hk). unfold state_of at 1. cbn [snd].
        by rewrite queue_of_set_logged, queue_of_Channel_queue.
      * rewrite (deliver_key_raises ch m w ek Hk Hne). unfold state_of at 1. cbn [snd].
        by rewrite queue_of_Channel_queue.
Qed.

(** C8.  [deliver] is [decode] followed by the enqueueing of the Event
    that [decode] returned: same calls of the serializers, same hooks on
    the same failures, same exceptions let through, same wait for room in
    the queue.  Hence an Event that [decode] returns for a record is the
    Event that [deliver] adds to the queue for it, as soon as the queue
    has room (while it is full, [deliver] is suspended and nothing has
    changed), and an Event that [deliver] adds to the queue is the one
    that [decode] returns. *)
Theorem deliver_is_decode_then_put (ch : Channel) (m : Message) (w : World) :
  Channel_deliver ch m w = deliver_by_decode ch m w /\
  (forall ev, result_of (Channel_decode ch m w) = Ok (Some ev) ->
     (full (the_queue w ch) = false ->
        result_of (Channel_deliver ch m w) = Done (Ok tt) /\
        queue_of (state_of (Channel_deliver ch m w)) ch = queue_of w ch ++ [ev]) /\
     (full (the_queue w ch) = true ->
        Channel_deliver ch m w = (Suspended, w))) /\
  (forall ev, queue_of (state_of (Channel_deliver ch m w)) ch = queue_of w ch ++ [ev] ->
     result_of (Channel_decode ch m w) = Ok (Some ev)).
Proof.
  split; [|split].
  - unfold deliver_by_decode, Channel_deliver, Channel_decode.
    rewrite !await_Channel_queue.
    destruct (loads_key (serializers (app ch)) (key_type ch) (msg_key m)) as [k|[]];
      try reflexivity.
    destruct (loads_value (serializers (app ch)) (value_type ch) (msg_value m)) as [v|[]];
      reflexivity.
  - intros ev Hdec.
    destruct (loads_key (serializers (app ch)) (key_type ch) (msg_key m)) as [k|ek] eqn:Hk;
      [destruct (loads_value (serializers (app ch)) (value_type ch) (msg_value m))
         as [v|ev'] eqn:Hv|].
    + rewrite (decode_on_success ch m w k v Hk Hv) in Hdec.
      injection Hdec as <-. split.
      * intros Hroom. rewrite (deliver_on_success ch m w k v Hk Hv Hroom).
        split; [reflexivity|]. unfold state_of at 1. cbn [snd].
        apply queue_of_set_queues_insert.
      * apply (deliver_on_success_full ch m w k v Hk Hv).
    + destruct (proj1 (decode_no_event ch m w ltac:(congruence)) ev Hdec).
    + destruct (proj1 (decode_no_event ch m w ltac:(congruence)) ev Hdec).
  - intros ev Hq.
    destruct (loads_key (serializers (app ch)) (key_type ch) (msg_key m)) as [k|ek] eqn:Hk;
      [destruct (loads_value (serializers (app ch)) (value_type ch) (msg_value m))
         as [v|ev'] eqn:Hv|].
    + rewrite (decode_on_success ch m w k v Hk Hv).
      destruct (full (the_queue w ch)) eqn:Hf.
      * rewrite (deliver_on_success_full ch m w k v Hk Hv Hf) in Hq.
        unfold state_of in Hq. cbn [snd] in Hq.
        apply (f_equal length) in Hq. rewrite length_app in Hq. cbn in Hq. lia.
      * rewrite (deliver_on_success ch m w k v Hk Hv Hf) in Hq.
        unfold state_of in Hq at 1. cbn [snd] in Hq.
        rewrite queue_of_set_queues_insert in Hq. cbn [items] in Hq.
        apply app_inv_head in Hq. by injection Hq as <-.
    + rewrite (proj2 (decode_no_event ch m w ltac:(congruence))) in Hq.
      apply (f_equal length) in Hq. rewrite length_app in Hq. cbn in Hq. lia.
    + rewrite (proj2 (decode_no_event ch m w ltac:(congruence))) in Hq.
      apply (f_equal length) in Hq. rewrite length_app in Hq. cbn in Hq. lia.
Qed.

Lemma deliver_is_decode_then_put_witness :
  (result_of (Channel_deliver sample_channel sample_message empty_world) = Done (Ok tt) /\
   queue_of (state_of (Channel_deliver sample_channel sample_message empty_world))
     sample_channel =
     queue_of empty_world sample_channel ++
     [mkEvent (PyStr "k1") (PyStr "v1") (Some sample_message)]) /\
  Channel_deliver sample_channel next_message
    (state_of (Channel_deliver sample_channel sample_message empty_world)) =
    (Suspended, state_of (Channel_deliver sample_channel sample_message empty_world)).
Proof.
  split.
  - apply (proj1 (proj2 (deliver_is_decode_then_put sample_channel sample_message empty_world))
             (mkEvent (PyStr "k1") (PyStr "v1") (Some sample_message)));
      reflexivity.
  - apply (proj1 (proj2 (deliver_is_decode_then_put sample_channel next_message
             (state_of (Channel_deliver sample_channel sample_message empty_world))))
             (mkEvent (PyStr "k4") (PyStr "v4") (Some next_message)));
      reflexivity.
Defined.

(* ===================================================================== *)
(** ** [Event.send] and [Event.forward] *)
(* ===================================================================== *)

(** What the dispatch does with the key and the value it is given.
    Unless forced, and with an Event in flight, it attaches: the pending
    message with this key and this value is kept with the record of that
    Event.  Otherwise, on a channel on which [put] is legal and whose
    queue has room, it publishes: the Event with this key and this value
    joins the queue and the resolved future is returned. *)
Lemma maybe_attach_dispatches (ch : Channel) (k v : pyobj) (partition : option Z)
    (ks vs : CodecArg) (cb : MessageSentCallback) (force : bool) (w : World) :
  (force = false ->
   forall ev, current_event w = Some ev ->
     App__maybe_attach ch k v partition ks vs cb force w =
       (Done (Ok (mkFutureMessage (mkPendingMessage ch k v ks vs partition cb) None)),
        set_attached
          (fun l => l ++ [(message ev,
                           mkFutureMessage (mkPendingMessage ch k v ks vs partition cb) None)])
          w)) /\
  (force = true \/ current_event w = None ->
   (is_iterator ch || clone_shares_queue ch)%bool = true ->
   full (the_queue w ch) = false ->
     result_of (App__maybe_attach ch k v partition ks vs cb force w) =
       Done (Ok (mkFutureMessage (mkPendingMessage ch k v ks vs partition cb)
                   (Some (mkRecordMetadata None None None None)))) /\
     queue_of (state_of (App__maybe_attach ch k v partition ks vs cb force w)) ch =
       queue_of w ch ++ [mkEvent k v None] /\
     attached (state_of (App__maybe_attach ch k v partition ks vs cb force w)) = attached w).
Proof.
  split.
  - intros -> ev Hev. unfold App__maybe_attach. cbn [negb].
    rewrite await_lift_gets, Hev. reflexivity.
  - intros Hnow Hl Hroom.
    assert (Heq : App__maybe_attach ch k v partition ks vs cb force w =
                  Channel__send_now ch k v partition ks vs cb w).
    { unfold App__maybe_attach. destruct force; cbn [negb]; [reflexivity|].
      destruct Hnow as [Hf|Hnone]; [discriminate|].
      by rewrite await_lift_gets, Hnone. }
    rewrite Heq. apply (send_now_publishes ch k v partition ks vs cb w Hl Hroom).
Qed.

(** C6.  [send] dispatches a message with the key and the value of the
    Event where the argument was left at its default, and with the
    argument itself where one was given; [forward], on an Event of record
    [m], dispatches one with the raw key and the raw value of [m] where
    the argument was left at its default, and with the argument itself
    where one was given.  Dispatched means: unless forced and with an
    Event in flight, the pending message with this key and this value is
    attached to the record of that Event; otherwise, on a channel on
    which [put] is legal and whose queue has room, the Event with this
    key and this value joins the queue and the future of the message is
    returned resolved. *)
Theorem send_inherits_decoded_forward_raw (self : Event) (ch : Channel)
    (karg : KeyArg) (varg : ValueArg) (partition : option Z) (ks vs : CodecArg)
    (cb : MessageSentCallback) (force : bool) (w : World) :
  (Event_send self ch karg varg partition ks vs cb force w =
     App__maybe_attach ch
       (match karg with USE_EXISTING_KEY => key self | Key x => x end)
       (match varg with USE_EXISTING_VALUE => value self | Value x => x end)
       partition ks vs cb force w /\
   (force = false ->
    forall ev, current_event w = Some ev ->
      Event_send self ch karg varg partition ks vs cb force w =
        (Done (Ok (mkFutureMessage
                     (mkPendingMessage ch
                        (match karg with USE_EXISTING_KEY => key self | Key x => x end)
                        (match varg with USE_EXISTING_VALUE => value self | Value x => x end)
                        ks vs partition cb) None)),
         set_attached
           (fun l => l ++ [(message ev,
              mkFutureMessage
                (mkPendingMessage ch
                   (match karg with USE_EXISTING_KEY => key self | Key x => x end)
                   (match varg with USE_EXISTING_VALUE => value self | Value x => x end)
                   ks vs partition cb) None)])
           w)) /\
   (force = true \/ current_event w = None ->
    (is_iterator ch || clone_shares_queue ch)%bool = true ->
    full (the_queue w ch) = false ->
      result_of (Event_send self ch karg varg partition ks vs cb force w) =
        Done (Ok (mkFutureMessage
                    (mkPendingMessage ch
                       (match karg with USE_EXISTING_KEY => key self | Key x => x end)
                       (match varg with USE_EXISTING_VALUE => value self | Value x => x end)
                       ks vs partition cb)
                    (Some (mkRecordMetadata None None None None)))) /\
      queue_of (state_of (Event_send self ch karg varg partition ks vs cb force w)) ch =
        queue_of w ch ++
        [mkEvent (match karg with USE_EXISTING_KEY => key self | Key x => x end)
                 (match varg with USE_EXISTING_VALUE => value self | Value x => x end)
                 None])) /\
  (forall m, message self = Some m ->
   Event_forward self ch karg varg partition ks vs cb force w =
     App__maybe_attach ch
       (match karg with USE_EXISTING_KEY => msg_key m | Key x => x end)
       (match varg with USE_EXISTING_VALUE => msg_value m | Value x => x end)
       partition ks vs cb force w /\
   (force = false ->
    forall ev, current_event w = Some ev ->
      Event_forward self ch karg varg partition ks vs cb force w =
        (Done (Ok (mkFutureMessage
                     (mkPendingMessage ch
                        (match karg with USE_EXISTING_KEY => msg_key m | Key x => x end)
                        (match varg with USE_EXISTING_VALUE => msg_value m | Value x => x end)
                        ks vs partition cb) None)),
         set_attached
           (fun l => l ++ [(message ev,
              mkFutureMessage
                (mkPendingMessage ch
                   (match karg with USE_EXISTING_KEY => msg_key m | Key x => x end)
                   (match varg with USE_EXISTING_VALUE => msg_value m | Value x => x end)
                   ks vs partition cb) None)])
           w)) /\
   (force = true \/ current_event w = None ->
    (is_iterator ch || clone_shares_queue ch)%bool = true ->
    full (the_queue w ch) = false ->
      result_of (Event_forward self ch karg varg partition ks vs cb force w) =
        Done (Ok (mkFutureMessage
                    (mkPendingMessage ch
                       (match karg with USE_EXISTING_KEY => msg_key m | Key x => x end)
                       (match varg with USE_EXISTING_VALUE => msg_value m | Value x => x end)
                       ks vs partition cb)
                    (Some (mkRecordMetadata None None None None)))) /\
      queue_of (state_of (Event_forward self ch karg varg partition ks vs cb force w)) ch =
        queue_of w ch ++
        [mkEvent (match karg with USE_EXISTING_KEY => msg_key m | Key x => x end)
                 (match varg with USE_EXISTING_VALUE => msg_value m | Value x => x end)
                 None])).
Proof.
  split.
  - assert (Hsend : Event_send self ch karg varg partition ks vs cb force w =
      App__maybe_attach ch
        (match karg with USE_EXISTING_KEY => key self | Key x => x end)
        (match varg with USE_EXISTING_VALUE => value self | Value x => x end)
        partition ks vs cb force w) by reflexivity.
    split; [exact Hsend|]. rewrite Hsend.
    destruct (maybe_attach_dispatches ch
                (match karg with USE_EXISTING_KEY => key self | Key x => x end)
                (match varg with USE_EXISTING_VALUE => value self | Value x => x end)
                partition ks vs cb force w) as [Hattach Hnow].
    split; [exact Hattach|].
    intros Hcase Hl Hroom. destruct (Hnow Hcase Hl Hroom) as (Hr & Hq & _). by split.
  - intros m Hm.
    assert (Hfwd : Event_forward self ch karg varg partition ks vs cb force w =
      App__maybe_attach ch
        (match karg with USE_EXISTING_KEY => msg_key m | Key x => x end)
        (match varg with USE_EXISTING_VALUE => msg_value m | Value x => x end)
        partition ks vs cb force w).
    { unfold Event_forward, message_attr, Event__send. rewrite Hm.
      destruct karg, varg; reflexivity. }
    split; [exact Hfwd|]. rewrite Hfwd.
    destruct (maybe_attach_dispatches ch
                (match karg with USE_EXISTING_KEY => msg_key m | Key x => x end)
                (match varg with USE_EXISTING_VALUE => msg_value m | Value x => x end)
                partition ks vs cb force w) as [Hattach Hnow].
    split; [exact Hattach|].
    intros Hcase Hl Hroom. destruct (Hnow Hcase Hl Hroom) as (Hr & Hq & _). by split.
Qed.

Lemma send_inherits_decoded_forward_raw_witness :
  (result_of (Event_send sample_event sample_channel USE_EXISTING_KEY USE_EXISTING_VALUE
                None None None None true empty_world) =
     Done (Ok (mkFutureMessage
                 (mkPendingMessage sample_channel (PyStr "k1") (PyInt 1) None None None None)
                 (Some (mkRecordMetadata None None None None)))) /\
   queue_of (state_of (Event_send sample_event sample_channel USE_EXISTING_KEY
                         USE_EXISTING_VALUE None None None None true empty_world))
     sample_channel =
     queue_of empty_world sample_channel ++ [mkEvent (PyStr "k1") (PyInt 1) None]) /\
  Event_forward sample_event sample_channel USE_EXISTING_KEY USE_EXISTING_VALUE
    None None None None false processing_world =
    (Done (Ok (mkFutureMessage
                 (mkPendingMessage sample_channel (PyBytes "k1") (PyBytes "v1")
                    None None None None) None)),
     set_attached
       (fun l => l ++ [(message sample_event,
          mkFutureMessage
            (mkPendingMessage sample_channel (PyBytes "k1") (PyBytes "v1")
               None None None None) None)])
       processing_world).
Proof.
  split.
  - apply (proj2 (proj2 (proj1 (send_inherits_decoded_forward_raw sample_event sample_channel
             USE_EXISTING_KEY USE_EXISTING_VALUE None None None None true empty_world)))).
    + left. reflexivity.
    + reflexivity.
    + reflexivity.
  - apply (proj1 (proj2 (proj2 (send_inherits_decoded_forward_raw sample_event sample_channel
             USE_EXISTING_KEY USE_EXISTING_VALUE None None None None false processing_world)
             sample_message eq_refl)) eq_refl sample_event).
    reflexivity.
Defined.

(** What the two calls leave in the queue of the sample channel: the
    decoded pair for [send], the raw pair for [forward]. *)
Example send_enqueues_decoded_pair :
  queue_of (state_of (Event_send sample_event sample_channel USE_EXISTING_KEY
                        USE_EXISTING_VALUE None None None None true empty_world))
    sample_channel = [mkEvent (PyStr "k1") (PyInt 1) None].
Proof. vm_compute. reflexivity. Qed.

Example forward_enqueues_raw_pair :
  queue_of (state_of (Event_forward sample_event sample_channel USE_EXISTING_KEY
                        USE_EXISTING_VALUE None None None None true empty_world))
    sample_channel = [mkEvent (PyBytes "k1") (PyBytes "v1") None].
Proof. vm_compute. reflexivity. Qed.

(* ===================================================================== *)
(** ** The table: lookups *)
(* ===================================================================== *)

Lemma contains_false (s : Store.t) (k : pyobj) :
  Store.data s !! k = None -> Store.contains s k = false.
Proof.
  intros H. unfold Store.contains. apply bool_decide_eq_false_2.
  rewrite H. by intros [? ?].
Qed.

Lemma contains_true (s : Store.t) (k v : pyobj) :
  Store.data s !! k = Some v -> Store.contains s k = true.
Proof.
  intros H. unfold Store.contains. apply bool_decide_eq_true_2.
  rewrite H. eauto.
Qed.

(** A lookup of a missing key: the sensors are told, and the answer is
    that of [__missing__]. *)
Lemma get_missing_step (t : Table.t) (k : pyobj) :
  Store.data (Table.data t) !! k = None ->
  Table._get_key k t =
    Table.__missing__ k (Table.set_sensors (fun l => l ++ [Table.on_table_get k]) t).
Proof.
  intros Hk. unfold Table._get_key, Table.__getitem__, Table.on_key_get, Table._sensor_on_get.
  rewrite bind_modify, bind_gets. cbn [Table.set_sensors Table.data].
  by rewrite (contains_false _ _ Hk).
Qed.

(** C9.  For a key that is not in the table, [get] returns what the
    default factory builds if there is one, and raises [KeyError] with
    that key if there is none. *)
Theorem get_missing_key_default_or_error (t : Table.t) (k : pyobj) :
  Store.data (Table.data t) !! k = None ->
  (forall factory, Table.default t = Some factory ->
     result_of (Table._get_key k t) = Ok (factory tt)) /\
  (Table.default t = None ->
     result_of (Table._get_key k t) = Raise (KeyError k)).
Proof.
  intros Hk. rewrite (get_missing_step t k Hk). unfold Table.__missing__.
  rewrite bind_gets. cbn [Table.set_sensors Table.default].
  split.
  - intros factory ->. reflexivity.
  - intros ->. reflexivity.
Qed.

Lemma get_missing_key_default_or_error_witness :
  result_of (Table._get_key (PyStr "a") counting_table) = Ok (PyInt 0) /\
  result_of (Table._get_key (PyStr "a") plain_table) = Raise (KeyError (PyStr "a")).
Proof.
  split.
  - apply (proj1 (get_missing_key_default_or_error counting_table (PyStr "a") eq_refl)
             (fun _ => PyInt 0)).
    reflexivity.
  - apply (proj2 (get_missing_key_default_or_error plain_table (PyStr "a") eq_refl)).
    reflexivity.
Defined.

(** C10.  With a default factory, [get] of a missing key returns the
    value the factory builds and leaves the store, the changelog and the
    deadlines as they were: the key is still missing, [has] still answers
    no, and nothing was appended to the changelog. *)
Theorem get_missing_key_does_not_insert (t : Table.t) (k : pyobj) (factory : unit -> pyobj) :
  Store.data (Table.data t) !! k = None ->
  Table.default t = Some factory ->
  result_of (Table._get_key k t) = Ok (factory tt) /\
  Table.data (state_of (Table._get_key k t)) = Table.data t /\
  Store.data (Table.data (state_of (Table._get_key k t))) !! k = None /\
  result_of (Table._has_key k (state_of (Table._get_key k t))) = Ok false /\
  Table.changelog (state_of (Table._get_key k t)) = Table.changelog t /\
  Table.ttl_keys (state_of (Table._get_key k t)) = Table.ttl_keys t.
Proof.
  intros Hk Hd. rewrite (get_missing_step t k Hk). unfold Table.__missing__.
  rewrite bind_gets. cbn [Table.set_sensors Table.default]. rewrite Hd.
  unfold ret, result_of, state_of. cbn [fst snd Table.data Table.changelog Table.ttl_keys].
  cbn [Table.set_sensors Table.data Table.changelog Table.ttl_keys].
  repeat split; try assumption.
  unfold Table._has_key, Table.__contains__, gets. cbn [fst Table.data Table.set_sensors].
  by rewrite (contains_false _ _ Hk).
Qed.

Lemma get_missing_key_does_not_insert_witness :
  result_of (Table._get_key (PyStr "a") counting_table) = Ok (PyInt 0) /\
  Table.data (state_of (Table._get_key (PyStr "a") counting_table)) =
    Table.data counting_table /\
  Store.data (Table.data (state_of (Table._get_key (PyStr "a") counting_table)))
    !! PyStr "a" = None /\
  result_of (Table._has_key (PyStr "a")
               (state_of (Table._get_key (PyStr "a") counting_table))) = Ok false /\
  Table.changelog (state_of (Table._get_key (PyStr "a") counting_table)) =
    Table.changelog counting_table /\
  Table.ttl_keys (state_of (Table._get_key (PyStr "a") counting_table)) =
    Table.ttl_keys counting_table.
Proof.
  apply (get_missing_key_does_not_insert counting_table (PyStr "a") (fun _ => PyInt 0)).
  - reflexivity.
  - reflexivity.
Defined.

(* ===================================================================== *)
(** ** The store: replay of a changelog batch *)
(* ===================================================================== *)

Lemma dict_update_snoc (d : gmap pyobj pyobj) (pairs : list (pyobj * pyobj)) (k v : pyobj) :
  Store.dict_update d (pairs ++ [(k, v)]) = <[k := v]> (Store.dict_update d pairs).
Proof. unfold Store.dict_update. by rewrite fold_left_app. Qed.

(** An assignment made before a run of assignments is not seen once the
    same key is assigned after the run. *)
Lemma insert_absorbs_earlier (pairs : list (pyobj * pyobj)) (k v v' : pyobj) :
  forall d : gmap pyobj pyobj,
    <[k := v]> (Store.dict_update (<[k := v']> d) pairs) =
    <[k := v]> (Store.dict_update d pairs).
Proof.
  induction pairs as [|[a b] pairs IH]; intros d; cbn.
  - by rewrite insert_insert_eq.
  - destruct (decide (a = k)) as [->|Hne].
    + by rewrite insert_insert_eq.
    + rewrite (insert_insert_ne d a k b v' Hne). apply IH.
Qed.

(** Last write wins, so a second pass over the same pairs changes
    nothing. *)
Lemma dict_update_idempotent (pairs : list (pyobj * pyobj)) :
  forall d : gmap pyobj pyobj,
    Store.dict_update (Store.dict_update d pairs) pairs = Store.dict_update d pairs.
Proof.
  induction pairs as [|[k v] pairs IH] using rev_ind; intros d; [reflexivity|].
  rewrite !dict_update_snoc, insert_absorbs_earlier. by rewrite IH.
Qed.

Lemma apply_changelog_batch_idempotent (s : Store.t) (batch : list Event)
    (to_key to_value : pyobj -> pyobj) :
  Store.apply_changelog_batch (Store.apply_changelog_batch s batch to_key to_value)
    batch to_key to_value =
  Store.apply_changelog_batch s batch to_key to_value.
Proof.
  unfold Store.apply_changelog_batch. cbn [Store.data].
  by rewrite dict_update_idempotent.
Qed.

(** C5.  The batch [(k,1), (k,2), (j,3)] applied to a fresh store leaves
    exactly the two bindings of [k] to 2 and of [j] to 3, for keys that
    the conversion keeps apart; applied once more, it leaves the store as
    it is. *)
Theorem replay_batch_k1_k2_j3 (k j : pyobj) (m1 m2 m3 : option Message)
    (to_key to_value : pyobj -> pyobj) :
  to_key k <> to_key j ->
  Store.data (Store.apply_changelog_batch Store.on_init (batch_k1_k2_j3 k j m1 m2 m3)
                to_key to_value) =
    {[ to_key k := to_value (PyInt 2); to_key j := to_value (PyInt 3) ]} /\
  Store.apply_changelog_batch
    (Store.apply_changelog_batch Store.on_init (batch_k1_k2_j3 k j m1 m2 m3) to_key to_value)
    (batch_k1_k2_j3 k j m1 m2 m3) to_key to_value =
  Store.apply_changelog_batch Store.on_init (batch_k1_k2_j3 k j m1 m2 m3) to_key to_value.
Proof.
  intros Hne. split.
  - unfold Store.apply_changelog_batch, Store.dict_update, batch_k1_k2_j3. cbn.
    rewrite insert_insert_eq.
    rewrite (insert_insert_ne ∅ (to_key j) (to_key k)) by congruence.
    reflexivity.
  - apply apply_changelog_batch_idempotent.
Qed.

Lemma replay_batch_k1_k2_j3_witness :
  Store.data (Store.apply_changelog_batch Store.on_init
                (batch_k1_k2_j3 (PyStr "k") (PyStr "j") None None None) id id) =
    {[ PyStr "k" := PyInt 2; PyStr "j" := PyInt 3 ]} /\
  Store.apply_changelog_batch
    (Store.apply_changelog_batch Store.on_init
       (batch_k1_k2_j3 (PyStr "k") (PyStr "j") None None None) id id)
    (batch_k1_k2_j3 (PyStr "k") (PyStr "j") None None None) id id =
  Store.apply_changelog_batch Store.on_init
    (batch_k1_k2_j3 (PyStr "k") (PyStr "j") None None None) id id.
Proof.
  apply (replay_batch_k1_k2_j3 (PyStr "k") (PyStr "j") None None None id id).
  discriminate.
Defined.

(* ===================================================================== *)
(** ** The table: mutations, changelog and replay *)
(* ===================================================================== *)

(** [set] appends the one entry [(k, v)] and binds [k] to [v]. *)
Lemma set_key_step (t : Table.t) (k v : pyobj) :
  result_of (Table._set_key k v t) = Ok tt /\
  Table.changelog (state_of (Table._set_key k v t)) = Table.changelog t ++ [(k, v)] /\
  Store.data (Table.data (state_of (Table._set_key k v t))) =
    <[k := v]> (Store.data (Table.data t)).
Proof.
  unfold Table._set_key, Table.__setitem__, Table.on_key_set, Table._send_changelog,
    Table._maybe_set_key_ttl, Table._sensor_on_set, bind, modify, result_of, state_of.
  cbn. destruct (Table.ttl_configured t); cbn; done.
Qed.

(** [del] appends the one entry [(k, None)], whether or not [k] is in the
    table, and [k] is not in the table afterwards. *)
Lemma del_key_step (t : Table.t) (k : pyobj) :
  Table.changelog (state_of (Table._del_key k t)) = Table.changelog t ++ [(k, PyNone)] /\
  Store.data (Table.data (state_of (Table._del_key k t))) =
    delete k (Store.data (Table.data t)).
Proof.
  unfold Table._del_key, Table.__delitem__, Table.on_key_del, Table._send_changelog,
    Table._maybe_del_key_ttl, Table._sensor_on_del, bind, modify, state_of, Store.delitem.
  cbn. destruct (Table.ttl_configured t); cbn;
    destruct (Store.data (Table.data t) !! k) eqn:Hk; cbn;
    rewrite ?(delete_id _ _ Hk); done.
Qed.

(** Every mutation appends exactly its entry to the changelog. *)
Lemma run_op_step (t : Table.t) (o : Table.op) :
  Table.changelog (state_of (Table.run_op o t)) = Table.changelog t ++ [changelog_entry o] /\
  Store.data (Table.data (state_of (Table.run_op o t))) =
    apply_op (Store.data (Table.data t)) o.
Proof.
  destruct o as [k v|k]; cbn [Table.run_op changelog_entry apply_op].
  - destruct (set_key_step t k v) as (_ & Hc & Hd). by split.
  - apply del_key_step.
Qed.

Lemma run_ops_log_and_data (history : list Table.op) :
  forall t : Table.t,
    Table.changelog (Table.run_ops history t) =
      Table.changelog t ++ map changelog_entry history /\
    Store.data (Table.data (Table.run_ops history t)) =
      fold_left apply_op history (Store.data (Table.data t)).
Proof.
  induction history as [|o history IH]; intros t; cbn.
  - by rewrite app_nil_r.
  - destruct (run_op_step t o) as [Hc Hd]. unfold state_of in Hc, Hd.
    destruct (IH (snd (Table.run_op o t))) as [IHc IHd].
    unfold Table.run_ops in IHc, IHd.
    rewrite IHc, IHd, Hc, Hd. by rewrite <- app_assoc.
Qed.

(** Replay assigns every entry, tombstones included. *)
Lemma replay_of_history (history : list Table.op) (t : Table.t) :
  Table.changelog t = [] ->
  Store.data (Table.replay (Table.run_ops history t)) =
    Store.dict_update ∅ (map changelog_entry history).
Proof.
  intros Hfresh. unfold Table.replay, Table.changelog_events, Store.apply_changelog_batch.
  cbn [Store.data Store.on_init].
  rewrite (proj1 (run_ops_log_and_data history t)), Hfresh. cbn [app].
  rewrite List.map_map. f_equal.
  rewrite <- (List.map_id (map changelog_entry history)) at 2.
  apply List.map_ext. by intros [k' v'].
Qed.

(** For a history of [set]s on a fresh table, replay of the changelog
    rebuilds the dictionary of the table. *)
Lemma replay_of_sets (history : list Table.op) (d : option (unit -> pyobj)) (ttl : bool) :
  forallb is_set history = true ->
  Store.data (Table.replay (Table.run_ops history (Table.new d ttl))) =
    Store.data (Table.data (Table.run_ops history (Table.new d ttl))).
Proof.
  intros Hsets. rewrite (replay_of_history history (Table.new d ttl) eq_refl).
  rewrite (proj2 (run_ops_log_and_data history _)). cbn [Table.new Table.data Store.on_init Store.data].
  generalize (∅ : gmap pyobj pyobj) as m.
  induction history as [|[k v|k] history IH]; intros m; cbn in *; try done.
  apply IH. exact Hsets.
Qed.

(** C2.  On a fresh table, [set(k, v)] followed by [del(k)] appends the
    two entries [(k, v)] and [(k, None)], one for each mutation, and
    leaves [k] out of the table; the replay of these two entries against
    a fresh store leaves [k] in the store, bound to [None]. *)
Theorem replay_binds_deleted_key_to_none (k v : pyobj) (d : option (unit -> pyobj)) (ttl : bool) :
  Table.changelog (Table.run_ops [Table.set k v; Table.del k] (Table.new d ttl)) =
    [(k, v); (k, PyNone)] /\
  Store.data (Table.data (Table.run_ops [Table.set k v; Table.del k] (Table.new d ttl)))
    !! k = None /\
  Store.data (Table.replay (Table.run_ops [Table.set k v; Table.del k] (Table.new d ttl)))
    !! k = Some PyNone.
Proof.
  split; [|split].
  - by rewrite (proj1 (run_ops_log_and_data _ _)).
  - rewrite (proj2 (run_ops_log_and_data _ _)). cbn. by rewrite lookup_delete_eq.
  - rewrite (replay_of_history _ (Table.new d ttl) eq_refl). cbn.
    by rewrite lookup_insert_eq.
Qed.

(* ===================================================================== *)
(** ** The store: what a replay leaves, in general *)
(* ===================================================================== *)

Lemma dict_update_cons (d : gmap pyobj pyobj) (k v : pyobj) (pairs : list (pyobj * pyobj)) :
  Store.dict_update d ((k, v) :: pairs) = Store.dict_update (<[k := v]> d) pairs.
Proof. reflexivity. Qed.

Lemma dict_update_app (d : gmap pyobj pyobj) (ps qs : list (pyobj * pyobj)) :
  Store.dict_update d (ps ++ qs) = Store.dict_update (Store.dict_update d ps) qs.
Proof. unfold Store.dict_update. by rewrite fold_left_app. Qed.

Lemma dict_update_dom (pairs : list (pyobj * pyobj)) :
  forall d : gmap pyobj pyobj,
    dom (Store.dict_update d pairs) = dom d ∪ list_to_set (map fst pairs).
Proof.
  induction pairs as [|[k v] pairs IH]; intros d.
  - cbn. by rewrite union_empty_r_L.
  - rewrite dict_update_cons, IH, dom_insert_L. cbn.
    rewrite (union_comm_L {[k]} (dom d)). by rewrite union_assoc_L.
Qed.

(** X1.  After a batch is applied, a key is bound to the converted value
    of the last Event of the batch that has this (converted) key, and
    keeps the binding it had, or none, when the batch has no such Event. *)
Theorem replay_last_write_wins (s : Store.t) (batch : list Event)
    (to_key to_value : pyobj -> pyobj) (x : pyobj) :
  Store.data (Store.apply_changelog_batch s batch to_key to_value) !! x =
    match last_write to_key x batch with
    | Some ev => Some (to_value (value ev))
    | None => Store.data s !! x
    end.
Proof.
  unfold Store.apply_changelog_batch. cbn [Store.data].
  generalize (Store.data s) as d.
  induction batch as [|ev batch IH]; intros d; [reflexivity|].
  cbn [map last_write]. rewrite dict_update_cons, IH.
  destruct (last_write to_key x batch) as [later|]; [reflexivity|].
  destruct (decide (to_key (key ev) = x)) as [<-|Hne].
  - by rewrite lookup_insert_eq.
  - by rewrite lookup_insert_ne.
Qed.

(** X2.  A changelog applied in two parts, one after the other, leaves
    the store that the whole changelog applied at once leaves. *)
Theorem replay_in_two_batches (s : Store.t) (first second : list Event)
    (to_key to_value : pyobj -> pyobj) :
  Store.apply_changelog_batch
    (Store.apply_changelog_batch s first to_key to_value) second to_key to_value =
  Store.apply_changelog_batch s (first ++ second) to_key to_value.
Proof.
  unfold Store.apply_changelog_batch. cbn [Store.data].
  by rewrite map_app, dict_update_app.
Qed.

(** X3.  For every store and every batch, applying the batch a second
    time changes nothing. *)
Theorem replay_twice_is_replay_once (s : Store.t) (batch : list Event)
    (to_key to_value : pyobj -> pyobj) :
  Store.apply_changelog_batch
    (Store.apply_changelog_batch s batch to_key to_value) batch to_key to_value =
  Store.apply_changelog_batch s batch to_key to_value.
Proof.
  unfold Store.apply_changelog_batch. cbn [Store.data].
  by rewrite dict_update_idempotent.
Qed.

(** X4.  A replay never removes a key: the keys of the store afterwards
    are the keys it had together with the converted keys of the batch,
    whatever the values of the Events are, [None] included. *)
Theorem replay_never_removes_a_key (s : Store.t) (batch : list Event)
    (to_key to_value : pyobj -> pyobj) :
  dom (Store.data (Store.apply_changelog_batch s batch to_key to_value)) =
    dom (Store.data s) ∪ list_to_set (map (fun ev => to_key (key ev)) batch).
Proof.
  unfold Store.apply_changelog_batch. cbn [Store.data].
  rewrite dict_update_dom, List.map_map. reflexivity.
Qed.

(* ===================================================================== *)
(** ** The table: reads, writes and deletions *)
(* ===================================================================== *)

(** A lookup of a key that is in the table: the sensors are told, and the
    answer is the stored value. *)
Lemma get_present_step (t : Table.t) (k v : pyobj) :
  Store.data (Table.data t) !! k = Some v ->
  Table._get_key k t =
    (Ok v, Table.set_sensors (fun l => l ++ [Table.on_table_get k]) t).
Proof.
  intros Hk. unfold Table._get_key, Table.__getitem__, Table.on_key_get, Table._sensor_on_get.
  rewrite bind_modify, bind_gets. cbn [Table.set_sensors Table.data].
  rewrite (contains_true _ _ _ Hk). cbv beta. unfold Store.getitem.
  cbn [Table.set_sensors Table.data]. by rewrite Hk.
Qed.

(** Whatever a lookup answers, it only tells the sensors. *)
Lemma get_state (t : Table.t) (k : pyobj) :
  state_of (Table._get_key k t) =
    Table.set_sensors (fun l => l ++ [Table.on_table_get k]) t.
Proof.
  destruct (Store.data (Table.data t) !! k) as [v|] eqn:Hk.
  - by rewrite (get_present_step t k v Hk).
  - rewrite (get_missing_step t k Hk). unfold Table.__missing__.
    rewrite bind_gets. by destruct (Table.default _).
Qed.

(** X5.  [set(k, v)] followed by [get(k)] returns [v], whether or not the
    key was there and whatever the default factory is; [has(k)] answers
    yes; and the binding of every other key is what it was. *)
Theorem set_then_get_returns_value (t : Table.t) (k v : pyobj) :
  result_of (Table._get_key k (state_of (Table._set_key k v t))) = Ok v /\
  result_of (Table._has_key k (state_of (Table._set_key k v t))) = Ok true /\
  forall k', k' <> k ->
    Store.data (Table.data (state_of (Table._set_key k v t))) !! k' =
      Store.data (Table.data t) !! k'.
Proof.
  destruct (set_key_step t k v) as (_ & _ & Hd).
  assert (Hk : Store.data (Table.data (state_of (Table._set_key k v t))) !! k = Some v)
    by (rewrite Hd; apply lookup_insert_eq).
  split; [|split].
  - by rewrite (get_present_step _ k v Hk).
  - unfold Table._has_key, Table.__contains__, gets, result_of. cbn [fst].
    by rewrite (contains_true _ _ _ Hk).
  - intros k' Hne. rewrite Hd. by apply lookup_insert_ne.
Qed.

Lemma set_then_get_returns_value_witness :
  Store.data (Table.data (state_of (Table._set_key (PyStr "a") (PyInt 1) plain_table)))
    !! PyStr "b" = Store.data (Table.data plain_table) !! PyStr "b".
Proof.
  apply (proj2 (proj2 (set_then_get_returns_value plain_table (PyStr "a") (PyInt 1)))).
  discriminate.
Defined.

(** X6.  [del(k)] tells the changelog and the sensors before it touches
    the store.  For a key that is in the table it returns, and the key is
    gone: [has(k)] answers no.  For a key that is not in the table it
    raises [KeyError(k)] and leaves the store as it was, but the entry
    [(k, None)] has been appended to the changelog and the sensors have
    been told of a deletion. *)
Theorem del_of_present_and_of_missing_key (t : Table.t) (k : pyobj) :
  (forall v, Store.data (Table.data t) !! k = Some v ->
     result_of (Table._del_key k t) = Ok tt /\
     Store.data (Table.data (state_of (Table._del_key k t))) !! k = None /\
     result_of (Table._has_key k (state_of (Table._del_key k t))) = Ok false) /\
  (Store.data (Table.data t) !! k = None ->
     result_of (Table._del_key k t) = Raise (KeyError k) /\
     Table.data (state_of (Table._del_key k t)) = Table.data t /\
     Table.changelog (state_of (Table._del_key k t)) = Table.changelog t ++ [(k, PyNone)] /\
     Table.sensors (state_of (Table._del_key k t)) =
       Table.sensors t ++ [Table.on_table_del k]).
Proof.
  split.
  - intros v Hk.
    assert (Hgone : Store.data (Table.data (state_of (Table._del_key k t))) !! k = None)
      by (rewrite (proj2 (del_key_step t k)); apply lookup_delete_eq).
    split; [|split; [exact Hgone|]].
    + unfold Table._del_key, Table.__delitem__, Table.on_key_del, Table._send_changelog,
        Table._maybe_del_key_ttl, Table._sensor_on_del, bind, modify, result_of, Store.delitem.
      cbn. destruct (Table.ttl_configured t); cbn; by rewrite Hk.
    + unfold Table._has_key, Table.__contains__, gets, result_of. cbn [fst].
      by rewrite (contains_false _ _ Hgone).
  - intros Hk.
    unfold Table._del_key, Table.__delitem__, Table.on_key_del, Table._send_changelog,
      Table._maybe_del_key_ttl, Table._sensor_on_del, bind, modify, result_of, state_of,
      Store.delitem.
    cbn. destruct (Table.ttl_configured t); cbn; rewrite Hk; cbn;
      by destruct (Table.data t).
Qed.

Lemma del_of_present_and_of_missing_key_witness :
  (result_of (Table._del_key (PyStr "a")
                (state_of (Table._set_key (PyStr "a") (PyInt 1) plain_table))) = Ok tt /\
   Store.data (Table.data (state_of (Table._del_key (PyStr "a")
       (state_of (Table._set_key (PyStr "a") (PyInt 1) plain_table))))) !! PyStr "a" = None /\
   result_of (Table._has_key (PyStr "a") (state_of (Table._del_key (PyStr "a")
       (state_of (Table._set_key (PyStr "a") (PyInt 1) plain_table))))) = Ok false) /\
  (result_of (Table._del_key (PyStr "a") plain_table) = Raise (KeyError (PyStr "a")) /\
   Table.data (state_of (Table._del_key (PyStr "a") plain_table)) = Table.data plain_table /\
   Table.changelog (state_of (Table._del_key (PyStr "a") plain_table)) =
     Table.changelog plain_table ++ [(PyStr "a", PyNone)] /\
   Table.sensors (state_of (Table._del_key (PyStr "a") plain_table)) =
     Table.sensors plain_table ++ [Table.on_table_del (PyStr "a")]).
Proof.
  split.
  - apply (proj1 (del_of_present_and_of_missing_key
                    (state_of (Table._set_key (PyStr "a") (PyInt 1) plain_table))
                    (PyStr "a")) (PyInt 1)).
    reflexivity.
  - apply (proj2 (del_of_present_and_of_missing_key plain_table (PyStr "a"))).
    reflexivity.
Defined.

(** X7.  [get] never writes: for every table and every key, present or
    missing, answered or refused with [KeyError], the store, the
    changelog, the deadlines and the default factory are what they were,
    and the sensors have been told of exactly this one lookup.  For a key
    that is in the table the answer is its value, and the default factory
    is not consulted. *)
Theorem get_only_reads (t : Table.t) (k : pyobj) :
  Table.data (state_of (Table._get_key k t)) = Table.data t /\
  Table.changelog (state_of (Table._get_key k t)) = Table.changelog t /\
  Table.ttl_keys (state_of (Table._get_key k t)) = Table.ttl_keys t /\
  Table.default (state_of (Table._get_key k t)) = Table.default t /\
  Table.sensors (state_of (Table._get_key k t)) = Table.sensors t ++ [Table.on_table_get k] /\
  (forall v, Store.data (Table.data t) !! k = Some v ->
     result_of (Table._get_key k t) = Ok v).
Proof.
  rewrite (get_state t k). cbn [Table.set_sensors Table.data Table.changelog Table.ttl_keys
    Table.default Table.sensors].
  repeat split. intros v Hk. by rewrite (get_present_step t k v Hk).
Qed.

Lemma get_only_reads_witness :
  result_of (Table._get_key (PyStr "a")
               (state_of (Table._set_key (PyStr "a") (PyInt 1) counting_table))) = Ok (PyInt 1).
Proof.
  apply (proj2 (proj2 (proj2 (proj2 (proj2
           (get_only_reads (state_of (Table._set_key (PyStr "a") (PyInt 1) counting_table))
              (PyStr "a")))))) (PyInt 1)).
  reflexivity.
Defined.

(* ===================================================================== *)
(** ** The table: its changelog over a history of mutations *)
(* ===================================================================== *)

(** X8.  Over any history of [set]s and [del]s, on any table, the
    changelog grows by exactly one entry per mutation, in the order of
    the mutations: [(k, v)] for a [set], [(k, None)] for a [del], the
    [del] of a missing key included. *)
Theorem changelog_has_one_entry_per_mutation (history : list Table.op) (t : Table.t) :
  Table.changelog (Table.run_ops history t) =
    Table.changelog t ++ map changelog_entry history /\
  length (Table.changelog (Table.run_ops history t)) =
    (length (Table.changelog t) + length history)%nat.
Proof.
  pose proof (proj1 (run_ops_log_and_data history t)) as Hc.
  split; [exact Hc|]. by rewrite Hc, length_app, length_map.
Qed.

(** The dictionary of the table against the dictionary of the replay,
    one mutation further. *)
Lemma replay_covers_step (T R : gmap pyobj pyobj) (o : Table.op) :
  (forall x v, T !! x = Some v -> R !! x = Some v) ->
  (forall x v, R !! x = Some v -> T !! x = Some v \/ (v = PyNone /\ T !! x = None)) ->
  (forall x v, apply_op T o !! x = Some v ->
     <[(changelog_entry o).1 := (changelog_entry o).2]> R !! x = Some v) /\
  (forall x v, <[(changelog_entry o).1 := (changelog_entry o).2]> R !! x = Some v ->
     apply_op T o !! x = Some v \/ (v = PyNone /\ apply_op T o !! x = None)).
Proof.
  intros Hin Hout. destruct o as [k w|k]; cbn [apply_op changelog_entry fst snd].
  - split; intros x v; destruct (decide (k = x)) as [->|Hne];
      rewrite ?lookup_insert_eq, ?lookup_insert_ne by done; auto.
  - split; intros x v; destruct (decide (k = x)) as [->|Hne];
      rewrite ?lookup_insert_eq, ?lookup_delete_eq, ?lookup_insert_ne, ?lookup_delete_ne
        by done; auto.
    + discriminate.
    + intros [= <-]. by right.
Qed.

Lemma replay_covers_fold (history : list Table.op) :
  forall T R : gmap pyobj pyobj,
    (forall x v, T !! x = Some v -> R !! x = Some v) ->
    (forall x v, R !! x = Some v -> T !! x = Some v \/ (v = PyNone /\ T !! x = None)) ->
    (forall x v, fold_left apply_op history T !! x = Some v ->
       Store.dict_update R (map changelog_entry history) !! x = Some v) /\
    (forall x v, Store.dict_update R (map changelog_entry history) !! x = Some v ->
       fold_left apply_op history T !! x = Some v \/
       (v = PyNone /\ fold_left apply_op history T !! x = None)).
Proof.
  induction history as [|o history IH]; intros T R Hin Hout; [by split|].
  destruct (replay_covers_step T R o Hin Hout) as [Hin' Hout'].
  cbn [fold_left map]. destruct (changelog_entry o) as [k v] eqn:He.
  rewrite dict_update_cons. apply IH; assumption.
Qed.

(** X9.  For every history of mutations of a fresh table, the replay of
    its changelog against a fresh store restores every binding of the
    table, and binds nothing else except keys that are not in the table,
    to [None]: the store it leaves differs from the table only by the
    deleted keys, which it keeps. *)
Theorem replay_restores_table_and_keeps_deleted_keys (history : list Table.op)
    (d : option (unit -> pyobj)) (ttl : bool) :
  (forall x v,
     Store.data (Table.data (Table.run_ops history (Table.new d ttl))) !! x = Some v ->
     Store.data (Table.replay (Table.run_ops history (Table.new d ttl))) !! x = Some v) /\
  (forall x v,
     Store.data (Table.replay (Table.run_ops history (Table.new d ttl))) !! x = Some v ->
     Store.data (Table.data (Table.run_ops history (Table.new d ttl))) !! x = Some v \/
     (v = PyNone /\
      Store.data (Table.data (Table.run_ops history (Table.new d ttl))) !! x = None)).
Proof.
  rewrite (replay_of_history history (Table.new d ttl) eq_refl).
  rewrite (proj2 (run_ops_log_and_data history (Table.new d ttl))).
  cbn [Table.new Table.data Store.on_init Store.data].
  apply replay_covers_fold.
  - intros x v. by rewrite lookup_empty.
  - intros x v. by rewrite lookup_empty.
Qed.

Lemma replay_restores_table_and_keeps_deleted_keys_witness :
  Store.data (Table.replay (Table.run_ops
      [Table.set (PyStr "a") (PyInt 1); Table.set (PyStr "b") (PyInt 2); Table.del (PyStr "a")]
      plain_table)) !! PyStr "b" = Some (PyInt 2).
Proof.
  apply (proj1 (replay_restores_table_and_keeps_deleted_keys
                  [Table.set (PyStr "a") (PyInt 1); Table.set (PyStr "b") (PyInt 2);
                   Table.del (PyStr "a")] None false) (PyStr "b") (PyInt 2)).
  reflexivity.
Defined.

(** X10.  For a history of [set]s only, on a fresh table, the store that
    the replay of the changelog leaves is the store of the table. *)
Theorem replay_of_set_only_history_is_the_table (history : list Table.op)
    (d : option (unit -> pyobj)) (ttl : bool) :
  forallb is_set history = true ->
  Table.replay (Table.run_ops history (Table.new d ttl)) =
    Table.data (Table.run_ops history (Table.new d ttl)).
Proof.
  intros Hsets. pose proof (replay_of_sets history d ttl Hsets) as Heq.
  destruct (Table.replay _) as [r], (Table.data _) as [s]. cbn in Heq. by rewrite Heq.
Qed.

Lemma replay_of_set_only_history_is_the_table_witness :
  Table.replay (Table.run_ops
      [Table.set (PyStr "a") (PyInt 1); Table.set (PyStr "a") (PyInt 2)] plain_table) =
    Table.data (Table.run_ops
      [Table.set (PyStr "a") (PyInt 1); Table.set (PyStr "a") (PyInt 2)] plain_table).
Proof.
  apply (replay_of_set_only_history_is_the_table
           [Table.set (PyStr "a") (PyInt 1); Table.set (PyStr "a") (PyInt 2)] None false).
  reflexivity.
Defined.

(* ===================================================================== *)
(** ** Delivery of a run of records *)
(* ===================================================================== *)

(** The queue property touches the queues and nothing else. *)
Lemma Channel_queue_shape (ch : Channel) (w : World) :
  exists g, state_of (Channel_queue ch w) = set_queues g w.
Proof.
  unfold Channel_queue, modify, state_of. cbn [snd].
  destruct (queues w !! chan_id ch).
  - exists (fun q => q). by destruct w.
  - by eexists.
Qed.

Lemma logged_Channel_queue (ch : Channel) (w : World) :
  logged (state_of (Channel_queue ch w)) = logged w.
Proof. destruct (Channel_queue_shape ch w) as [g ->]. reflexivity. Qed.

(** The answer of [decode] does not depend on the state. *)
Lemma decode_result_is_outcome (ch : Channel) (m : Message) (w : World) :
  result_of (Channel_decode ch m w) = decode_outcome ch m.
Proof.
  unfold decode_outcome, Channel_decode.
  destruct (loads_key (serializers (app ch)) (key_type ch) (msg_key m)) as [k|[]];
    try reflexivity.
  destruct (loads_value (serializers (app ch)) (value_type ch) (msg_value m)) as [v|[]];
    reflexivity.
Qed.

(** [deliver] by the outcomes of the decoding. *)
Lemma deliver_outcome_event (ch : Channel) (m : Message) (w : World) (ev : Event) :
  decode_outcome ch m = Ok (Some ev) ->
  full (the_queue w ch) = false ->
  Channel_deliver ch m w =
    (Done (Ok tt),
     set_queues <[chan_id ch := mkQueue (maxsize (the_queue w ch)) (queue_of w ch ++ [ev])]>
       (state_of (Channel_queue ch w))).
Proof.
  unfold decode_outcome, Channel_decode.
  destruct (loads_key (serializers (app ch)) (key_type ch) (msg_key m)) as [k|ek] eqn:Hk;
    [|by destruct ek].
  destruct (loads_value (serializers (app ch)) (value_type ch) (msg_value m)) as [v|ev'] eqn:Hv;
    [|by destruct ev'].
  intros [= <-]. apply (deliver_on_success ch m w k v Hk Hv).
Qed.

Lemma deliver_outcome_event_full (ch : Channel) (m : Message) (w : World) (ev : Event) :
  decode_outcome ch m = Ok (Some ev) ->
  full (the_queue w ch) = true ->
  Channel_deliver ch m w = (Suspended, w).
Proof.
  unfold decode_outcome, Channel_decode.
  destruct (loads_key (serializers (app ch)) (key_type ch) (msg_key m)) as [k|ek] eqn:Hk;
    [|by destruct ek].
  destruct (loads_value (serializers (app ch)) (value_type ch) (msg_value m)) as [v|ev'] eqn:Hv;
    [|by destruct ev'].
  intros _. apply (deliver_on_success_full ch m w k v Hk Hv).
Qed.

Lemma deliver_outcome_dropped (ch : Channel) (m : Message) (w : World) :
  decode_outcome ch m = Ok None ->
  exists rec,
    Channel_deliver ch m w =
      (Done (Ok tt), set_logged (fun l => l ++ [rec]) (state_of (Channel_queue ch w))).
Proof.
  unfold decode_outcome, Channel_decode.
  destruct (loads_key (serializers (app ch)) (key_type ch) (msg_key m)) as [k|ek] eqn:Hk.
  - destruct (loads_value (serializers (app ch)) (value_type ch) (msg_value m))
      as [v|ev'] eqn:Hv; [discriminate|].
    destruct ev'; try discriminate. intros _.
    eexists. apply (deliver_on_value_error ch m w k why Hk Hv).
  - destruct ek; try discriminate. intros _.
    eexists. apply (deliver_on_key_error ch m w why Hk).
Qed.

Lemma deliver_outcome_raised (ch : Channel) (m : Message) (w : World) (exc : exn) :
  decode_outcome ch m = Raise exc ->
  Channel_deliver ch m w = (Done (Raise exc), state_of (Channel_queue ch w)).
Proof.
  unfold decode_outcome, Channel_decode.
  destruct (loads_key (serializers (app ch)) (key_type ch) (msg_key m)) as [k|ek] eqn:Hk.
  - destruct (loads_value (serializers (app ch)) (value_type ch) (msg_value m))
      as [v|ev'] eqn:Hv; [discriminate|].
    destruct (value_error_or_other ev') as [[why ->]|Hne]; [discriminate|].
    intros Hexc. rewrite (deliver_value_raises ch m w k ev' Hk Hv Hne).
    destruct ev'; try (by injection Hexc as ->). by destruct (Hne why).
  - destruct (key_error_or_other ek) as [[why ->]|Hne]; [discriminate|].
    intros Hexc. rewrite (deliver_key_raises ch m w ek Hk Hne).
    destruct ek; try (by injection Hexc as ->). by destruct (Hne why).
Qed.

Lemma omap_decoded_cons (ch : Channel) (m : Message) (ms : list Message) (o : option Event) :
  decode_outcome ch m = Ok o ->
  omap (decoded_event ch) (m :: ms) =
    match o with
    | Some ev => ev :: omap (decoded_event ch) ms
    | None => omap (decoded_event ch) ms
    end.
Proof. intros Ho. cbn. unfold decoded_event at 1. rewrite Ho. by destruct o. Qed.

(** Room for some values is room for the first, and then for the rest. *)
Lemma room_for_first (w : World) (ch : Channel) (n : nat) :
  room_for w ch (S n) -> full (the_queue w ch) = false.
Proof.
  unfold room_for, full, queue_of. intros [Hunbounded|Hfits].
  - destruct (Z.ltb_spec 0 (maxsize (the_queue w ch))); [lia|reflexivity].
  - apply andb_false_iff. right. apply Z.leb_gt. lia.
Qed.

Lemma room_for_rest (w w' : World) (ch : Channel) (ev : Event) (n : nat) :
  room_for w ch (S n) ->
  the_queue w' ch = mkQueue (maxsize (the_queue w ch)) (queue_of w ch ++ [ev]) ->
  room_for w' ch n.
Proof.
  unfold room_for, queue_of. intros Hroom ->. cbn [maxsize items].
  rewrite length_app. cbn [length].
  destruct Hroom as [Hunbounded|Hfits]; [by left|right; lia].
Qed.

Lemma room_for_same (w w' : World) (ch : Channel) (n : nat) :
  room_for w ch n -> the_queue w' ch = the_queue w ch -> room_for w' ch n.
Proof. unfold room_for, queue_of. by intros Hroom ->. Qed.

(** X11.  Records delivered one after the other to a channel whose queue
    has room for the Events of those that decode, none of which makes a
    serializer raise anything but its own decode error: every call
    returns, the Events of the records that decode join the queue in the
    order of the records, behind what was waiting, and every record that
    does not decode leaves exactly one line in the log and nothing in the
    queue. *)
Theorem deliveries_enqueue_in_order (ch : Channel) (ms : list Message) (w : World) :
  Forall (fun m => exists o, decode_outcome ch m = Ok o) ms ->
  room_for w ch (length (omap (decoded_event ch) ms)) ->
  result_of (for_each_await (Channel_deliver ch) ms w) = Done (Ok tt) /\
  queue_of (state_of (for_each_await (Channel_deliver ch) ms w)) ch =
    queue_of w ch ++ omap (decoded_event ch) ms /\
  length (logged (state_of (for_each_await (Channel_deliver ch) ms w))) =
    (length (logged w) + (length ms - length (omap (decoded_event ch) ms)))%nat.
Proof.
  intros Hms. revert w. induction Hms as [|m ms [o Ho] _ IH]; intros w Hroom.
  - cbn. unfold result_of, state_of, lift, ret. cbn. rewrite app_nil_r.
    split; [done|]. split; [done|lia].
  - assert (Hlen : (length (omap (decoded_event ch) ms) <= length ms)%nat).
    { clear. induction ms as [|m ms IH]; cbn; [lia|].
      destruct (decoded_event ch m); cbn; lia. }
    cbn [for_each_await]. rewrite (omap_decoded_cons ch m ms o Ho) in Hroom |- *.
    destruct o as [ev|].
    + cbn [length] in Hroom.
      pose proof (room_for_first w ch _ Hroom) as Hfirst.
      rewrite (await_Done _ _ _ _ _ (deliver_outcome_event ch m w ev Ho Hfirst)).
      destruct (IH (set_queues <[chan_id ch := mkQueue (maxsize (the_queue w ch))
                                                       (queue_of w ch ++ [ev])]>
                      (state_of (Channel_queue ch w)))) as (Hr & Hq & Hl).
      { apply (room_for_rest w _ ch ev _ Hroom). apply the_queue_set_queues_insert. }
      split; [exact Hr|]. split.
      * rewrite Hq, queue_of_set_queues_insert. cbn [items]. by rewrite <- app_assoc.
      * rewrite Hl. cbn [logged set_queues]. rewrite logged_Channel_queue.
        cbn [length]. lia.
    + destruct (deliver_outcome_dropped ch m w Ho) as [rec Hd].
      rewrite (await_Done _ _ _ _ _ Hd).
      destruct (IH (set_logged (fun l => l ++ [rec]) (state_of (Channel_queue ch w))))
        as (Hr & Hq & Hl).
      { apply (room_for_same w _ ch _ Hroom).
        by rewrite the_queue_set_logged, the_queue_Channel_queue. }
      split; [exact Hr|]. split.
      * rewrite Hq, queue_of_set_logged, queue_of_Channel_queue. reflexivity.
      * rewrite Hl. cbn [logged set_logged]. rewrite logged_Channel_queue, length_app.
        cbn [length]. lia.
Qed.

Lemma deliveries_enqueue_in_order_witness :
  queue_of (state_of (for_each_await (Channel_deliver sample_channel)
      [sample_message; bad_key_message; next_message] roomy_world)) sample_channel =
    queue_of roomy_world sample_channel ++
    omap (decoded_event sample_channel) [sample_message; bad_key_message; next_message].
Proof.
  apply (deliveries_enqueue_in_order sample_channel
           [sample_message; bad_key_message; next_message] roomy_world).
  - repeat constructor; eexists; reflexivity.
  - left. vm_compute. discriminate.
Defined.

(** X12.  [deliver] never acknowledges and never counts: whatever the
    record and however its decoding ends, also when the delivery is
    suspended, the reference counts, the acknowledgments asked of the
    transport, the attached sends, the callbacks called and the Event in
    flight are what they were.  A record that is dropped is thus left
    unacknowledged. *)
Theorem deliver_never_acknowledges (ch : Channel) (m : Message) (w : World) :
  refcounts (state_of (Channel_deliver ch m w)) = refcounts w /\
  consumer_acked (state_of (Channel_deliver ch m w)) = consumer_acked w /\
  attached (state_of (Channel_deliver ch m w)) = attached w /\
  callbacks_called (state_of (Channel_deliver ch m w)) = callbacks_called w /\
  current_event (state_of (Channel_deliver ch m w)) = current_event w.
Proof.
  destruct (Channel_queue_shape ch w) as [g Hg].
  destruct (decode_outcome ch m) as [[ev|]|exc] eqn:Ho.
  - destruct (full (the_queue w ch)) eqn:Hf.
    + rewrite (deliver_outcome_event_full ch m w ev Ho Hf). by repeat split.
    + rewrite (deliver_outcome_event ch m w ev Ho Hf), Hg. by repeat split.
  - destruct (deliver_outcome_dropped ch m w Ho) as [rec ->]. rewrite Hg. by repeat split.
  - rewrite (deliver_outcome_raised ch m w exc Ho), Hg. by repeat split.
Qed.

(** X13.  [decode] reads the record and at most writes the log: it never
    touches a queue, a reference count or the acknowledgments, and the
    log afterwards begins with the log before. *)
Theorem decode_only_logs (ch : Channel) (m : Message) (w : World) :
  queues (state_of (Channel_decode ch m w)) = queues w /\
  refcounts (state_of (Channel_decode ch m w)) = refcounts w /\
  consumer_acked (state_of (Channel_decode ch m w)) = consumer_acked w /\
  attached (state_of (Channel_decode ch m w)) = attached w /\
  exists more, logged (state_of (Channel_decode ch m w)) = logged w ++ more /\
               (length more <= 1)%nat /\
               (result_of (Channel_decode ch m w) = Ok None <-> length more = 1%nat).
Proof.
  unfold Channel_decode.
  destruct (loads_key (serializers (app ch)) (key_type ch) (msg_key m)) as [k|ek].
  - destruct (loads_value (serializers (app ch)) (value_type ch) (msg_value m)) as [v|ev].
    + repeat split; try done. exists []. rewrite app_nil_r. cbn. repeat split; try done; lia.
    + destruct ev; repeat split; try done;
        try (exists []; rewrite app_nil_r; cbn; repeat split; try done; lia).
      eexists [_]. cbn. repeat split; try done; lia.
  - destruct ek; repeat split; try done;
      try (exists []; rewrite app_nil_r; cbn; repeat split; try done; lia).
    eexists [_]. cbn. repeat split; try done; lia.
Qed.

(** X14.  Only the decode error of the decoder at work is handled.  An
    exception of the key decoder that is not a [KeyDecodeError], and an
    exception of the value decoder that is not a [ValueDecodeError] (a
    [KeyDecodeError] included), comes out of [deliver]; no hook runs, so
    nothing is logged, and nothing is enqueued. *)
Theorem deliver_lets_other_exceptions_through (ch : Channel) (m : Message) (w : World) :
  (forall exc,
     loads_key (serializers (app ch)) (key_type ch) (msg_key m) = Raise exc ->
     (forall why, exc <> KeyDecodeError why) ->
     result_of (Channel_deliver ch m w) = Done (Raise exc) /\
     logged (state_of (Channel_deliver ch m w)) = logged w /\
     queue_of (state_of (Channel_deliver ch m w)) ch = queue_of w ch) /\
  (forall k exc,
     loads_key (serializers (app ch)) (key_type ch) (msg_key m) = Ok k ->
     loads_value (serializers (app ch)) (value_type ch) (msg_value m) = Raise exc ->
     (forall why, exc <> ValueDecodeError why) ->
     result_of (Channel_deliver ch m w) = Done (Raise exc) /\
     logged (state_of (Channel_deliver ch m w)) = logged w /\
     queue_of (state_of (Channel_deliver ch m w)) ch = queue_of w ch).
Proof.
  split.
  - intros exc Hk Hne. rewrite (deliver_key_raises ch m w exc Hk Hne).
    split; [reflexivity|].
    split; [apply logged_Channel_queue|apply queue_of_Channel_queue].
  - intros k exc Hk Hv Hne. rewrite (deliver_value_raises ch m w k exc Hk Hv Hne).
    split; [reflexivity|].
    split; [apply logged_Channel_queue|apply queue_of_Channel_queue].
Qed.

Lemma deliver_lets_other_exceptions_through_witness :
  result_of (Channel_deliver odd_channel sample_message empty_world) =
    Done (Raise (KeyDecodeError "raised while decoding the value")) /\
  logged (state_of (Channel_deliver odd_channel sample_message empty_world)) =
    logged empty_world /\
  queue_of (state_of (Channel_deliver odd_channel sample_message empty_world)) odd_channel =
    queue_of empty_world odd_channel.
Proof.
  apply (proj2 (deliver_lets_other_exceptions_through odd_channel sample_message empty_world)
           (PyBytes "k1") (KeyDecodeError "raised while decoding the value")).
  - reflexivity.
  - reflexivity.
  - intros why. discriminate.
Defined.

(* ===================================================================== *)
(** ** The queue of a channel: put, get and iteration *)
(* ===================================================================== *)

Lemma puts_with_room (ch : Channel) (evs : list Event) :
  (is_iterator ch || clone_shares_queue ch)%bool = true ->
  forall w, room_for w ch (length evs) ->
    result_of (for_each_await (Channel_put ch) evs w) = Done (Ok tt) /\
    the_queue (state_of (for_each_await (Channel_put ch) evs w)) ch =
      mkQueue (maxsize (the_queue w ch)) (queue_of w ch ++ evs).
Proof.
  intros Hl. induction evs as [|ev evs IH]; intros w Hroom.
  - cbn. unfold state_of, lift, ret, queue_of. cbn. rewrite app_nil_r.
    split; [reflexivity|]. by destruct (the_queue w ch).
  - cbn [for_each_await]. cbn [length] in Hroom.
    pose proof (room_for_first w ch _ Hroom) as Hfirst.
    rewrite (await_Done _ _ _ _ _
               (eq_trans (put_on_legal_channel ch ev w Hl) (queue_put_room ch ev w Hfirst))).
    destruct (IH (set_queues <[chan_id ch := mkQueue (maxsize (the_queue w ch))
                                                     (queue_of w ch ++ [ev])]> w))
      as [Hr Hq].
    { apply (room_for_rest w _ ch ev _ Hroom). apply the_queue_set_queues_insert. }
    split; [exact Hr|]. rewrite Hq, queue_of_set_queues_insert, the_queue_set_queues_insert.
    cbn [maxsize items]. by rewrite <- app_assoc.
Qed.

(** [get] by the two shapes of the queue. *)
Lemma get_on_empty_queue (ch : Channel) (w : World) :
  queue_of w ch = [] ->
  Channel_get ch w = (Suspended, state_of (Channel_queue ch w)).
Proof.
  intros Hq. unfold Channel_get, queue_get. rewrite await_Channel_queue.
  rewrite the_queue_Channel_queue. unfold queue_of in Hq. by rewrite Hq.
Qed.

Lemma get_on_waiting_event (ch : Channel) (w : World) (ev : Event) (rest : list Event) :
  queue_of w ch = ev :: rest ->
  Channel_get ch w =
    (Done (Ok ev), set_queues <[chan_id ch := mkQueue (maxsize (the_queue w ch)) rest]> w).
Proof.
  intros Hq. unfold Channel_get, queue_get. rewrite await_Channel_queue.
  rewrite the_queue_Channel_queue. unfold queue_of in Hq. rewrite Hq.
  by rewrite set_queues_insert_created.
Qed.

Lemma get_many_takes (ch : Channel) (n : nat) :
  forall w, (n <= length (queue_of w ch))%nat ->
    exists w', get_many ch n w = (Done (Ok (take n (queue_of w ch))), w') /\
               queue_of w' ch = drop n (queue_of w ch).
Proof.
  induction n as [|n IH]; intros w Hn.
  - exists w. by rewrite take_0, drop_0.
  - destruct (queue_of w ch) as [|ev rest] eqn:Hq; [cbn in Hn; lia|].
    pose proof (get_on_waiting_event ch w ev rest Hq) as Hget.
    set (w1 := set_queues <[chan_id ch := mkQueue (maxsize (the_queue w ch)) rest]> w) in *.
    assert (Hq1 : queue_of w1 ch = rest) by apply queue_of_set_queues_insert.
    destruct (IH w1) as (w' & Hmany & Hq'); [rewrite Hq1; cbn in Hn; lia|].
    exists w'. cbn [get_many]. rewrite (await_Done _ _ _ _ _ Hget).
    rewrite (await_Done _ _ _ _ _ Hmany). rewrite Hq1 in Hq' |- *.
    split; [reflexivity|exact Hq'].
Qed.

(** X15.  [put] on a channel that is neither in iterator form nor shares
    its queue is a usage error that changes nothing.  On any other
    channel, while the queue has room, it returns with the value at the
    end of the queue, and what waits in the queues of other channels is
    what waited; while the queue is full, it is suspended and nothing has
    changed. *)
Theorem put_needs_iterator_or_shared_queue (ch : Channel) (ev : Event) (w : World) :
  ((is_iterator ch || clone_shares_queue ch)%bool = false ->
     Channel_put ch ev w =
       (Done (Raise (RuntimeError "Cannot put on this channel before aiter(channel)")), w)) /\
  ((is_iterator ch || clone_shares_queue ch)%bool = true ->
   full (the_queue w ch) = false ->
     result_of (Channel_put ch ev w) = Done (Ok tt) /\
     queue_of (state_of (Channel_put ch ev w)) ch = queue_of w ch ++ [ev] /\
     (forall other, chan_id other <> chan_id ch ->
        queue_of (state_of (Channel_put ch ev w)) other = queue_of w other)) /\
  ((is_iterator ch || clone_shares_queue ch)%bool = true ->
   full (the_queue w ch) = true ->
     Channel_put ch ev w = (Suspended, w)).
Proof.
  split; [|split].
  - intros Hl. unfold Channel_put. by rewrite not_legal_iff, Hl.
  - intros Hl Hroom.
    rewrite (put_on_legal_channel ch ev w Hl), (queue_put_room ch ev w Hroom).
    split; [reflexivity|]. split; [apply queue_of_set_queues_insert|].
    intros other Hne. unfold state_of, queue_of, the_queue. cbn.
    by rewrite lookup_insert_ne.
  - intros Hl Hfull. rewrite (put_on_legal_channel ch ev w Hl).
    by apply queue_put_full.
Qed.

Lemma put_needs_iterator_or_shared_queue_witness :
  Channel_put private_channel sample_event empty_world =
    (Done (Raise (RuntimeError "Cannot put on this channel before aiter(channel)")),
     empty_world) /\
  queue_of (state_of (Channel_put sample_channel sample_event empty_world)) sample_channel =
    queue_of empty_world sample_channel ++ [sample_event] /\
  Channel_put sample_channel sample_event
    (state_of (Channel_put sample_channel sample_event empty_world)) =
    (Suspended, state_of (Channel_put sample_channel sample_event empty_world)).
Proof.
  split; [|split].
  - apply (proj1 (put_needs_iterator_or_shared_queue private_channel sample_event empty_world)).
    reflexivity.
  - apply (proj1 (proj2 (put_needs_iterator_or_shared_queue sample_channel sample_event
                           empty_world))); reflexivity.
  - apply (proj2 (proj2 (put_needs_iterator_or_shared_queue sample_channel sample_event
                           (state_of (Channel_put sample_channel sample_event empty_world)))));
      reflexivity.
Defined.

(** X16.  The queue is first-in first-out across [put] and [get]: when
    the queue has room for the values [evs], every [put] of them returns;
    then as many calls of [get] as values are waiting return what was
    waiting followed by [evs], in this order, the queue is then empty,
    and one more [get] is suspended. *)
Theorem gets_return_in_put_order (ch : Channel) (evs : list Event) (w : World) :
  (is_iterator ch || clone_shares_queue ch)%bool = true ->
  room_for w ch (length evs) ->
  result_of (for_each_await (Channel_put ch) evs w) = Done (Ok tt) /\
  exists w',
    get_many ch (length (queue_of w ch ++ evs))
      (state_of (for_each_await (Channel_put ch) evs w)) =
      (Done (Ok (queue_of w ch ++ evs)), w') /\
    queue_of w' ch = [] /\
    result_of (Channel_get ch w') = Suspended.
Proof.
  intros Hl Hroom. destruct (puts_with_room ch evs Hl w Hroom) as [Hr Hthe].
  split; [exact Hr|].
  assert (Hq : queue_of (state_of (for_each_await (Channel_put ch) evs w)) ch =
               queue_of w ch ++ evs) by (unfold queue_of at 1; by rewrite Hthe).
  destruct (get_many_takes ch (length (queue_of w ch ++ evs))
              (state_of (for_each_await (Channel_put ch) evs w))) as (w' & Hmany & Hq').
  { by rewrite Hq. }
  rewrite Hq in Hmany, Hq'. rewrite firstn_all in Hmany. rewrite drop_all in Hq'.
  exists w'. split; [exact Hmany|]. split; [exact Hq'|].
  by rewrite (get_on_empty_queue ch w' Hq').
Qed.

Lemma gets_return_in_put_order_witness :
  result_of (for_each_await (Channel_put sample_channel)
               [sample_event; mkEvent (PyStr "b") (PyInt 2) None] roomy_world) = Done (Ok tt) /\
  exists w',
    get_many sample_channel
      (length (queue_of roomy_world sample_channel ++
               [sample_event; mkEvent (PyStr "b") (PyInt 2) None]))
      (state_of (for_each_await (Channel_put sample_channel)
                   [sample_event; mkEvent (PyStr "b") (PyInt 2) None] roomy_world)) =
      (Done (Ok (queue_of roomy_world sample_channel ++
                 [sample_event; mkEvent (PyStr "b") (PyInt 2) None])), w') /\
    queue_of w' sample_channel = [] /\
    result_of (Channel_get sample_channel w') = Suspended.
Proof.
  apply (gets_return_in_put_order sample_channel
           [sample_event; mkEvent (PyStr "b") (PyInt 2) None] roomy_world).
  - reflexivity.
  - left. vm_compute. discriminate.
Defined.

(** X17.  [__anext__] on a channel that is not in iterator form is a
    usage error that changes nothing, whatever is waiting.  On a channel
    in iterator form it returns the oldest Event and takes it out of the
    queue, and is suspended while the queue is empty. *)
Theorem anext_needs_iterator_form (ch : Channel) (w : World) :
  (is_iterator ch = false ->
     Channel___anext__ ch w =
       (Done (Raise (RuntimeError "Need to call channel.__aiter__()")), w)) /\
  (is_iterator ch = true ->
     (forall ev rest, queue_of w ch = ev :: rest ->
        exists w', Channel___anext__ ch w = (Done (Ok ev), w') /\ queue_of w' ch = rest) /\
     (queue_of w ch = [] ->
        result_of (Channel___anext__ ch w) = Suspended /\
        queue_of (state_of (Channel___anext__ ch w)) ch = [])).
Proof.
  unfold Channel___anext__. split.
  - by intros ->.
  - intros ->. cbn [negb]. split.
    + intros ev rest Hq. eexists. split; [apply (get_on_waiting_event ch w ev rest Hq)|].
      apply queue_of_set_queues_insert.
    + intros Hq. fold (Channel_get ch). rewrite (get_on_empty_queue ch w Hq).
      split; [reflexivity|]. unfold state_of at 1. cbn [snd].
      by rewrite queue_of_Channel_queue.
Qed.

Lemma anext_needs_iterator_form_witness :
  Channel___anext__ sample_channel
    (state_of (Channel_put sample_channel sample_event empty_world)) =
    (Done (Raise (RuntimeError "Need to call channel.__aiter__()")),
     state_of (Channel_put sample_channel sample_event empty_world)).
Proof.
  apply (proj1 (anext_needs_iterator_form sample_channel
                  (state_of (Channel_put sample_channel sample_event empty_world)))).
  reflexivity.
Defined.

(* ===================================================================== *)
(** ** Cloning and iterating a channel *)
(* ===================================================================== *)

Lemma clone_sharing (self : Channel) (is_iter : option bool) (fresh : N) (w : World) :
  clone_shares_queue self = true ->
  Channel_clone self is_iter fresh w =
    (Ok (mkChannel (chan_id self) (app self) (key_type self) (value_type self)
           (match is_iter with Some b => b | None => is_iterator self end) true),
     state_of (Channel_queue self w)).
Proof.
  intros Hs. unfold Channel_clone, Channel__clone_args. rewrite Hs. reflexivity.
Qed.

Lemma clone_not_sharing (self : Channel) (is_iter : option bool) (fresh : N) (w : World) :
  clone_shares_queue self = false ->
  Channel_clone self is_iter fresh w =
    (Ok (mkChannel fresh (app self) (key_type self) (value_type self)
           (match is_iter with Some b => b | None => is_iterator self end) false),
     w).
Proof.
  intros Hs. unfold Channel_clone, Channel__clone_args. rewrite Hs. reflexivity.
Qed.

(** X18.  [clone] keeps the application and the key and value types, and
    takes the iterator flag it is given, or the one of the original when
    it is given none.  When the class shares the queue, the clone and the
    original have the same Events waiting, in every state, and the clone
    decodes every record as the original does; the cloning itself changes
    what is waiting in no queue. *)
Theorem clone_shares_configuration_and_queue (self : Channel) (is_iter : option bool)
    (fresh : N) (w : World) :
  exists c,
    result_of (Channel_clone self is_iter fresh w) = Ok c /\
    app c = app self /\ key_type c = key_type self /\ value_type c = value_type self /\
    clone_shares_queue c = clone_shares_queue self /\
    is_iterator c = match is_iter with Some b => b | None => is_iterator self end /\
    (forall m, decode_outcome c m = decode_outcome self m) /\
    (forall other, queue_of (state_of (Channel_clone self is_iter fresh w)) other =
                   queue_of w other) /\
    (clone_shares_queue self = true -> forall w', queue_of w' c = queue_of w' self).
Proof.
  destruct (clone_shares_queue self) eqn:Hs.
  - rewrite (clone_sharing self is_iter fresh w Hs). eexists. split; [reflexivity|].
    cbn [app key_type value_type clone_shares_queue is_iterator].
    repeat split; try done.
    intros other. apply queue_of_Channel_queue.
  - rewrite (clone_not_sharing self is_iter fresh w Hs). eexists. split; [reflexivity|].
    cbn [app key_type value_type clone_shares_queue is_iterator].
    repeat split; try done.
Qed.

Lemma clone_shares_configuration_and_queue_witness :
  exists c,
    result_of (Channel_clone sample_channel (Some true) 5 empty_world) = Ok c /\
    is_iterator c = true /\
    forall w', queue_of w' c = queue_of w' sample_channel.
Proof.
  destruct (clone_shares_configuration_and_queue sample_channel (Some true) 5 empty_world)
    as (c & Hc & _ & _ & _ & _ & Hit & _ & _ & Hshare).
  exists c. split; [exact Hc|]. split; [exact Hit|]. apply Hshare. reflexivity.
Defined.

(** X19.  Iterating a channel receives what is delivered to it.  For a
    channel in producer form whose class shares the queue, [__aiter__]
    returns a channel in iterator form; a record that decodes to [ev],
    delivered to the original while nothing is waiting, is what
    [__anext__] of the iterator returns, and the queue is empty again;
    [__anext__] of the original is the usage error.  A channel that is in
    iterator form is its own iterator. *)
Theorem iterator_receives_deliveries (ch : Channel) (fresh : N) (m : Message)
    (ev : Event) (w : World) :
  (is_iterator ch = true -> Channel___aiter__ ch fresh w = (Ok ch, w)) /\
  (is_iterator ch = false ->
   clone_shares_queue ch = true ->
   queue_of w ch = [] ->
   decode_outcome ch m = Ok (Some ev) ->
   exists it w1 w3,
     Channel___aiter__ ch fresh w = (Ok it, w1) /\
     is_iterator it = true /\
     result_of (Channel_deliver ch m w1) = Done (Ok tt) /\
     Channel___anext__ it (state_of (Channel_deliver ch m w1)) = (Done (Ok ev), w3) /\
     queue_of w3 ch = [] /\
     Channel___anext__ ch (state_of (Channel_deliver ch m w1)) =
       (Done (Raise (RuntimeError "Need to call channel.__aiter__()")),
        state_of (Channel_deliver ch m w1))).
Proof.
  split.
  - intros Hit. unfold Channel___aiter__. by rewrite Hit.
  - intros Hit Hs Hq Ho. unfold Channel___aiter__. rewrite Hit.
    rewrite (clone_sharing ch (Some true) fresh w Hs).
    set (it := mkChannel (chan_id ch) (app ch) (key_type ch) (value_type ch) true true).
    set (w1 := state_of (Channel_queue ch w)).
    assert (Hq1 : queue_of w1 ch = []) by (unfold w1; by rewrite queue_of_Channel_queue).
    pose proof (deliver_outcome_event ch m w1 ev Ho (empty_queue_not_full ch w1 Hq1)) as Hd.
    assert (Hq2 : queue_of (state_of (Channel_deliver ch m w1)) it = [ev]).
    { rewrite Hd. unfold state_of at 1. cbn [snd]. rewrite Hq1.
      apply (queue_of_set_queues_insert it). }
    pose proof (get_on_waiting_event it _ ev [] Hq2) as Hget.
    eexists it, w1, _. split; [reflexivity|]. split; [reflexivity|].
    split; [by rewrite Hd|]. split; [exact Hget|].
    split; [apply (queue_of_set_queues_insert it)|].
    unfold Channel___anext__. by rewrite Hit.
Qed.

Lemma iterator_receives_deliveries_witness :
  exists it w1 w3,
    Channel___aiter__ sample_channel 5 empty_world = (Ok it, w1) /\
    is_iterator it = true /\
    result_of (Channel_deliver sample_channel sample_message w1) = Done (Ok tt) /\
    Channel___anext__ it (state_of (Channel_deliver sample_channel sample_message w1)) =
      (Done (Ok (mkEvent (PyStr "k1") (PyStr "v1") (Some sample_message))), w3) /\
    queue_of w3 sample_channel = [] /\
    Channel___anext__ sample_channel
      (state_of (Channel_deliver sample_channel sample_message w1)) =
      (Done (Raise (RuntimeError "Need to call channel.__aiter__()")),
       state_of (Channel_deliver sample_channel sample_message w1)).
Proof.
  apply (proj2 (iterator_receives_deliveries sample_channel 5 sample_message
                  (mkEvent (PyStr "k1") (PyStr "v1") (Some sample_message)) empty_world));
    reflexivity.
Defined.

(** X20.  When the class does not share the queue, the iterator that
    [__aiter__] makes of a channel in producer form is a new channel with
    a queue of its own.  Whatever a delivery to the original comes to,
    nothing waits in the queue of the iterator afterwards and [__anext__]
    of the iterator is suspended; when the queue of the original has
    room, an Event delivered to the original waits in the queue of the
    original. *)
Theorem private_iterator_misses_deliveries (ch : Channel) (fresh : N) (m : Message)
    (ev : Event) (w : World) :
  is_iterator ch = false ->
  clone_shares_queue ch = false ->
  fresh <> chan_id ch ->
  queues w !! fresh = None ->
  decode_outcome ch m = Ok (Some ev) ->
  exists it,
    Channel___aiter__ ch fresh w = (Ok it, w) /\
    is_iterator it = true /\
    queue_of (state_of (Channel_deliver ch m w)) it = [] /\
    result_of (Channel___anext__ it (state_of (Channel_deliver ch m w))) = Suspended /\
    (full (the_queue w ch) = false ->
       result_of (Channel_deliver ch m w) = Done (Ok tt) /\
       queue_of (state_of (Channel_deliver ch m w)) ch = queue_of w ch ++ [ev]).
Proof.
  intros Hit Hs Hfresh Hnone Ho. unfold Channel___aiter__. rewrite Hit.
  rewrite (clone_not_sharing ch (Some true) fresh w Hs).
  set (it := mkChannel fresh (app ch) (key_type ch) (value_type ch) true false).
  assert (Hw : queue_of w it = []).
  { unfold queue_of, the_queue. cbn [chan_id it]. by rewrite Hnone. }
  assert (Hqit : queue_of (state_of (Channel_deliver ch m w)) it = []).
  { destruct (full (the_queue w ch)) eqn:Hf.
    - by rewrite (deliver_outcome_event_full ch m w ev Ho Hf).
    - rewrite (deliver_outcome_event ch m w ev Ho Hf). unfold state_of at 1. cbn [snd].
      unfold queue_of, the_queue. cbn [queues set_queues chan_id it].
      rewrite lookup_insert_ne by done.
      pose proof (queue_of_Channel_queue ch it w) as Hq.
      unfold queue_of, the_queue in Hq. cbn [chan_id it] in Hq. rewrite Hq.
      by rewrite Hnone. }
  exists it. split; [reflexivity|]. split; [reflexivity|]. split; [exact Hqit|]. split.
  - unfold Channel___anext__. cbn [is_iterator it negb]. fold (Channel_get it).
    by rewrite (get_on_empty_queue it _ Hqit).
  - intros Hf. rewrite (deliver_outcome_event ch m w ev Ho Hf).
    split; [reflexivity|]. apply queue_of_set_queues_insert.
Qed.

Lemma private_iterator_misses_deliveries_witness :
  exists it,
    Channel___aiter__ private_channel 5 empty_world = (Ok it, empty_world) /\
    is_iterator it = true /\
    queue_of (state_of (Channel_deliver private_channel sample_message empty_world)) it = [] /\
    result_of (Channel___anext__ it
                 (state_of (Channel_deliver private_channel sample_message empty_world))) =
      Suspended /\
    (full (the_queue empty_world private_channel) = false ->
       result_of (Channel_deliver private_channel sample_message empty_world) = Done (Ok tt) /\
       queue_of (state_of (Channel_deliver private_channel sample_message empty_world))
         private_channel =
         queue_of empty_world private_channel ++
         [mkEvent (PyStr "k1") (PyStr "v1") (Some sample_message)]).
Proof.
  apply (private_iterator_misses_deliveries private_channel 5 sample_message
           (mkEvent (PyStr "k1") (PyStr "v1") (Some sample_message)) empty_world);
    try reflexivity.
  discriminate.
Defined.

(* ===================================================================== *)
(** ** Publishing on an in-process channel *)
(* ===================================================================== *)

(** X21.  [publish_message] of a pending message, on a channel on which
    [put] is legal.  While the queue has room: an Event with the key and
    the value of the message and no record joins the queue, the future is
    resolved with metadata whose four fields are [None], and the callback
    of the message, if it has one, is called exactly once, with the
    resolved future; without a callback none is called.  While the queue
    is full: the call is suspended in [put] and nothing has changed, the
    future stays pending and no callback is called.  On a channel on
    which [put] is not legal, the usage error comes out before anything
    else happens. *)
Theorem publish_resolves_future_and_calls_back (ch : Channel) (fut : FutureMessage) (w : World) :
  fut_result fut = None ->
  ((is_iterator ch || clone_shares_queue ch)%bool = true ->
   full (the_queue w ch) = false ->
     result_of (Channel_publish_message ch fut w) =
       Done (Ok (mkFutureMessage (fut_message fut)
                   (Some (mkRecordMetadata None None None None)))) /\
     queue_of (state_of (Channel_publish_message ch fut w)) ch =
       queue_of w ch ++
       [mkEvent (pm_key (fut_message fut)) (pm_value (fut_message fut)) None] /\
     callbacks_called (state_of (Channel_publish_message ch fut w)) =
       callbacks_called w ++
       match pm_callback (fut_message fut) with
       | Some cb =>
           [(cb, mkFutureMessage (fut_message fut)
                   (Some (mkRecordMetadata None None None None)))]
       | None => []
       end) /\
  ((is_iterator ch || clone_shares_queue ch)%bool = true ->
   full (the_queue w ch) = true ->
     Channel_publish_message ch fut w = (Suspended, w)) /\
  ((is_iterator ch || clone_shares_queue ch)%bool = false ->
     Channel_publish_message ch fut w =
       (Done (Raise (RuntimeError "Cannot put on this channel before aiter(channel)")), w)).
Proof.
  intros _. split; [|split].
  - intros Hl Hroom. unfold Channel_publish_message.
    rewrite (await_Done _ _ _ _ _
               (eq_trans (put_on_legal_channel ch _ w Hl) (queue_put_room ch _ w Hroom))).
    unfold Channel__finalize_message, Channel__create_event. cbn [fut_message].
    destruct (pm_callback (fut_message fut)) as [cb|];
      unfold lift, result_of, state_of; cbn [fst snd bind modify ret].
    + split; [reflexivity|]. split; [|reflexivity].
      unfold queue_of, the_queue. cbn. by rewrite lookup_insert_eq.
    + split; [reflexivity|]. split; [apply queue_of_set_queues_insert|].
      cbn. by rewrite app_nil_r.
  - intros Hl Hfull. unfold Channel_publish_message. apply await_Suspended.
    rewrite (put_on_legal_channel ch _ w Hl). by apply queue_put_full.
  - intros Hl. unfold Channel_publish_message, Channel_put.
    by rewrite not_legal_iff, Hl.
Qed.

Lemma publish_resolves_future_and_calls_back_witness :
  callbacks_called (state_of (Channel_publish_message sample_channel
      (Channel_as_future_message sample_channel (PyStr "a") (PyInt 5) None None None (Some 4%N))
      empty_world)) =
    callbacks_called empty_world ++
    match pm_callback (fut_message
            (Channel_as_future_message sample_channel (PyStr "a") (PyInt 5)
               None None None (Some 4%N))) with
    | Some cb =>
        [(cb, mkFutureMessage
                (fut_message (Channel_as_future_message sample_channel (PyStr "a") (PyInt 5)
                                None None None (Some 4%N)))
                (Some (mkRecordMetadata None None None None)))]
    | None => []
    end.
Proof.
  apply (proj1 (publish_resolves_future_and_calls_back sample_channel
                  (Channel_as_future_message sample_channel (PyStr "a") (PyInt 5)
                     None None None (Some 4%N))
                  empty_world eq_refl)); reflexivity.
Defined.

(** X22.  An Event that was published in process has no record.  After a
    forced [send] on a channel with nothing waiting, [get] returns an
    Event with the key and the value that were sent and with [message]
    [None]; [ack] of this Event raises [AttributeError] and asks the
    transport nothing, and so does the exit of a scope over it, whatever
    its body returned. *)
Theorem published_event_has_no_record_to_ack (ch : Channel) (k v : pyobj)
    (partition : option Z) (ks vs : CodecArg) (cb : MessageSentCallback) (w : World) :
  (is_iterator ch || clone_shares_queue ch)%bool = true ->
  queue_of w ch = [] ->
  exists w',
    Channel_get ch (state_of (Channel_send ch k v partition ks vs cb true w)) =
      (Done (Ok (mkEvent k v None)), w') /\
    Event_ack (mkEvent k v None) w' = (Raise (AttributeError "decref"), w') /\
    forall (body : Event -> M World unit) w'',
      body (mkEvent k v None) w' = (Ok tt, w'') ->
      async_with (mkEvent k v None) body w' = (Raise (AttributeError "decref"), w'').
Proof.
  intros Hl Hq.
  destruct (send_now_publishes ch k v partition ks vs cb w Hl (empty_queue_not_full ch w Hq))
    as (_ & Hq1 & _).
  rewrite Hq in Hq1. cbn [app] in Hq1.
  eexists. split; [apply (get_on_waiting_event ch _ _ _ Hq1)|]. split; [reflexivity|].
  intros body w'' Hbody. unfold async_with, Event___aenter__. rewrite bind_ret.
  by rewrite Hbody.
Qed.

Lemma published_event_has_no_record_to_ack_witness :
  exists w',
    Channel_get sample_channel
      (state_of (Channel_send sample_channel (PyStr "a") (PyInt 5) None None None None true
                   processing_world)) =
      (Done (Ok (mkEvent (PyStr "a") (PyInt 5) None)), w') /\
    Event_ack (mkEvent (PyStr "a") (PyInt 5) None) w' = (Raise (AttributeError "decref"), w') /\
    forall (body : Event -> M World unit) w'',
      body (mkEvent (PyStr "a") (PyInt 5) None) w' = (Ok tt, w'') ->
      async_with (mkEvent (PyStr "a") (PyInt 5) None) body w' =
        (Raise (AttributeError "decref"), w'').
Proof.
  apply (published_event_has_no_record_to_ack sample_channel (PyStr "a") (PyInt 5)
           None None None None processing_world); reflexivity.
Defined.

(** X23.  [forward] reads the record only for an argument left at its
    default.  On an Event without a record, [forward] with the key or the
    value left at its default raises [AttributeError] and dispatches
    nothing: the state is what it was.  With both the key and the value
    given, [forward] is [send], on every Event. *)
Theorem forward_reads_record_only_for_defaults (self : Event) (ch : Channel)
    (karg : KeyArg) (varg : ValueArg) (partition : option Z) (ks vs : CodecArg)
    (cb : MessageSentCallback) (force : bool) (w : World) :
  (message self = None ->
   karg = USE_EXISTING_KEY \/ varg = USE_EXISTING_VALUE ->
   exists attr,
     Event_forward self ch karg varg partition ks vs cb force w =
       (Done (Raise (AttributeError attr)), w)) /\
  (forall k v,
     Event_forward self ch (Key k) (Value v) partition ks vs cb force w =
     Event_send self ch (Key k) (Value v) partition ks vs cb force w).
Proof.
  split.
  - intros Hm Hdefault. unfold Event_forward, message_attr. rewrite Hm.
    destruct karg as [|k]; [by eexists|].
    destruct varg as [|v]; [by eexists|].
    by destruct Hdefault.
  - reflexivity.
Qed.

Lemma forward_reads_record_only_for_defaults_witness :
  exists attr,
    Event_forward (mkEvent (PyStr "a") (PyInt 5) None) sample_channel
      (Key (PyStr "b")) USE_EXISTING_VALUE None None None None true empty_world =
      (Done (Raise (AttributeError attr)), empty_world).
Proof.
  apply (proj1 (forward_reads_record_only_for_defaults (mkEvent (PyStr "a") (PyInt 5) None)
                  sample_channel (Key (PyStr "b")) USE_EXISTING_VALUE
                  None None None None true empty_world)).
  - reflexivity.
  - right. reflexivity.
Defined.

(* ===================================================================== *)
(** ** Back-pressure *)
(* ===================================================================== *)

(** X24.  The queue that a channel creates for itself holds one Event.
    On a channel that was given no queue, a first record that decodes is
    delivered and waits in the queue; the delivery of a second one is
    suspended, and nothing has changed; once [get] has taken the first
    Event, the delivery of the second returns and its Event waits in the
    queue. *)
Theorem second_delivery_waits_for_get (ch : Channel) (m1 m2 : Message) (e1 e2 : Event)
    (w : World) :
  queues w !! chan_id ch = None ->
  decode_outcome ch m1 = Ok (Some e1) ->
  decode_outcome ch m2 = Ok (Some e2) ->
  result_of (Channel_deliver ch m1 w) = Done (Ok tt) /\
  queue_of (state_of (Channel_deliver ch m1 w)) ch = [e1] /\
  Channel_deliver ch m2 (state_of (Channel_deliver ch m1 w)) =
    (Suspended, state_of (Channel_deliver ch m1 w)) /\
  exists w2,
    Channel_get ch (state_of (Channel_deliver ch m1 w)) = (Done (Ok e1), w2) /\
    result_of (Channel_deliver ch m2 w2) = Done (Ok tt) /\
    queue_of (state_of (Channel_deliver ch m2 w2)) ch = [e2].
Proof.
  intros Hnone H1 H2.
  assert (Hthe : the_queue w ch = mkQueue 1 []) by (unfold the_queue; by rewrite Hnone).
  assert (Hroom : full (the_queue w ch) = false) by (by rewrite Hthe).
  pose proof (deliver_outcome_event ch m1 w e1 H1 Hroom) as Hd1.
  unfold queue_of in Hd1. rewrite Hthe in Hd1. cbn [maxsize items app] in Hd1.
  rewrite Hd1. unfold result_of, state_of. cbn [fst snd].
  set (w1 := set_queues <[chan_id ch := mkQueue 1 [e1]]> (snd (Channel_queue ch w))).
  assert (Hthe1 : the_queue w1 ch = mkQueue 1 [e1]) by apply the_queue_set_queues_insert.
  assert (Hq1 : queue_of w1 ch = [e1]) by (unfold queue_of; by rewrite Hthe1).
  split; [reflexivity|]. split; [exact Hq1|]. split.
  - apply (deliver_outcome_event_full ch m2 w1 e2 H2). by rewrite Hthe1.
  - pose proof (get_on_waiting_event ch w1 e1 [] Hq1) as Hget. rewrite Hthe1 in Hget.
    cbn [maxsize] in Hget.
    set (w2 := set_queues <[chan_id ch := mkQueue 1 []]> w1) in *.
    assert (Hthe2 : the_queue w2 ch = mkQueue 1 []) by apply the_queue_set_queues_insert.
    exists w2. split; [exact Hget|].
    rewrite (deliver_outcome_event ch m2 w2 e2 H2) by (by rewrite Hthe2).
    split; [reflexivity|]. cbn [snd]. rewrite queue_of_set_queues_insert.
    unfold queue_of. by rewrite Hthe2.
Qed.

Lemma second_delivery_waits_for_get_witness :
  result_of (Channel_deliver sample_channel sample_message empty_world) = Done (Ok tt) /\
  queue_of (state_of (Channel_deliver sample_channel sample_message empty_world))
    sample_channel = [mkEvent (PyStr "k1") (PyStr "v1") (Some sample_message)] /\
  Channel_deliver sample_channel next_message
    (state_of (Channel_deliver sample_channel sample_message empty_world)) =
    (Suspended, state_of (Channel_deliver sample_channel sample_message empty_world)) /\
  exists w2,
    Channel_get sample_channel
      (state_of (Channel_deliver sample_channel sample_message empty_world)) =
      (Done (Ok (mkEvent (PyStr "k1") (PyStr "v1") (Some sample_message))), w2) /\
    result_of (Channel_deliver sample_channel next_message w2) = Done (Ok tt) /\
    queue_of (state_of (Channel_deliver sample_channel next_message w2)) sample_channel =
      [mkEvent (PyStr "k4") (PyStr "v4") (Some next_message)].
Proof.
  apply (second_delivery_waits_for_get sample_channel sample_message next_message
           (mkEvent (PyStr "k1") (PyStr "v1") (Some sample_message))
           (mkEvent (PyStr "k4") (PyStr "v4") (Some next_message)) empty_world);
    reflexivity.
Defined.

(** X25.  With the producer and the consumer taking turns, a queue of
    any bound, the bound 1 of the default queue included, carries the
    Events in the order of the records: for records that all decode,
    delivered to a channel with nothing waiting, each [deliver] and each
    [get] returns, the Events that the [get]s returned are the Events of
    the records in their order, and nothing waits at the end. *)
Theorem relay_receives_in_order (ch : Channel) (ms : list Message) (w : World) :
  Forall (fun m => exists ev, decode_outcome ch m = Ok (Some ev)) ms ->
  queue_of w ch = [] ->
  result_of (relay ch ms w) = Done (Ok (omap (decoded_event ch) ms)) /\
  queue_of (state_of (relay ch ms w)) ch = [] /\
  length (omap (decoded_event ch) ms) = length ms.
Proof.
  intros Hms. revert w. induction Hms as [|m ms [ev Ho] _ IH]; intros w Hq.
  - cbn. by rewrite Hq.
  - cbn [relay]. rewrite (omap_decoded_cons ch m ms (Some ev) Ho).
    rewrite (await_Done _ _ _ _ _
               (deliver_outcome_event ch m w ev Ho (empty_queue_not_full ch w Hq))).
    rewrite Hq. cbn [app].
    set (w1 := set_queues <[chan_id ch := mkQueue (maxsize (the_queue w ch)) [ev]]>
                 (state_of (Channel_queue ch w))).
    assert (Hq1 : queue_of w1 ch = [ev]) by apply queue_of_set_queues_insert.
    rewrite (await_Done _ _ _ _ _ (get_on_waiting_event ch w1 ev [] Hq1)).
    set (w2 := set_queues <[chan_id ch := mkQueue (maxsize (the_queue w1 ch)) []]> w1).
    assert (Hq2 : queue_of w2 ch = []) by apply queue_of_set_queues_insert.
    destruct (IH w2 Hq2) as (Hr & Hqend & Hlen).
    assert (Hrun : relay ch ms w2 =
                   (Done (Ok (omap (decoded_event ch) ms)), state_of (relay ch ms w2))).
    { rewrite <- Hr. unfold result_of, state_of. by destruct (relay ch ms w2). }
    rewrite (await_Done _ _ _ _ _ Hrun).
    split; [reflexivity|]. split; [exact Hqend|]. cbn [length]. by rewrite Hlen.
Qed.

Lemma relay_receives_in_order_witness :
  result_of (relay sample_channel [sample_message; next_message] empty_world) =
    Done (Ok (omap (decoded_event sample_channel) [sample_message; next_message])) /\
  queue_of (state_of (relay sample_channel [sample_message; next_message] empty_world))
    sample_channel = [] /\
  length (omap (decoded_event sample_channel) [sample_message; next_message]) =
    length [sample_message; next_message].
Proof.
  apply (relay_receives_in_order sample_channel [sample_message; next_message] empty_world).
  - repeat constructor; eexists; reflexivity.
  - reflexivity.
Defined.
